(** * anyrouter-autolog: a shallow embedding of [get_user/auto_login.py]

    The script reads a list of account records from [user.json], drives a
    browser through the login page of each account and writes the collected
    records to [anyrouter_accounts.json].

    The embedding keeps the control flow of the two functions of the source,
    [login_and_extract] and [main], statement by statement.  The browser, the
    file system and the JSON parser are outside the source; they appear as
    oracles that give the result of each call, a value or a raised exception.
    Everything the script does to the outside is recorded in an event trace,
    a call that raises included.

    - Exceptions are those of class [Exception], which is what the calls of
      the script raise and what its [except] clauses catch.
    - [print], [time.sleep], [context.close], [browser.close] and the write
      of the output file return; every other call on the browser may raise.
    - The local variables [results] and [info] of [main] are fields of the
      state, [info] being unbound until line 193 assigns it. *)

From Stdlib Require Import List ZArith NArith Bool String Ascii DecimalString
  DecimalZ Lia.
Import ListNotations.
Local Open Scope Z_scope.
Set Warnings "-register-all,-notation-for-abbreviation".

(** ** Python values *)

(** A Python [str] is a sequence of code points. *)
Definition pystr : Type := list N.

(** An ASCII literal of the source as a [pystr]. *)
Definition lit (s : string) : pystr :=
  map N_of_ascii (list_ascii_of_string s).

Definition pystr_eqb (a b : pystr) : bool :=
  if list_eq_dec N.eq_dec a b then true else false.

(** Characters removed by [str.strip()] without argument: the code points
    for which [str.isspace] holds. *)
Definition is_space (c : N) : bool :=
  (((9 <=? c) && (c <=? 13)) || ((28 <=? c) && (c <=? 32))
   || (c =? 133) || (c =? 160) || (c =? 5760)
   || ((8192 <=? c) && (c <=? 8202))
   || (c =? 8232) || (c =? 8233) || (c =? 8239) || (c =? 8287)
   || (c =? 12288))%N.

Fixpoint lstrip (s : pystr) : pystr :=
  match s with
  | c :: s' => if is_space c then lstrip s' else s
  | [] => []
  end.

Definition strip (s : pystr) : pystr := rev (lstrip (rev (lstrip s))).

(** The values [json.load] and [json.loads] build.  A float is kept by what
    the script can observe of it: its truth value and its [str()]. *)
Inductive json : Type :=
| JNull
| JBool (b : bool)
| JInt (z : Z)
| JFloat (nonzero : bool) (shown : pystr)
| JStr (s : pystr)
| JList (l : list json)
| JDict (d : list (pystr * json)).

(** Python truth value, as used by [not], [or] and [if]. *)
Definition truthy (j : json) : bool :=
  match j with
  | JNull => false
  | JBool b => b
  | JInt z => negb (z =? 0)
  | JFloat nz _ => nz
  | JStr s => match s with [] => false | _ => true end
  | JList l => match l with [] => false | _ => true end
  | JDict d => match d with [] => false | _ => true end
  end.

Fixpoint assoc {A : Type} (k : pystr) (d : list (pystr * A)) : option A :=
  match d with
  | [] => None
  | (k', v) :: d' => if pystr_eqb k k' then Some v else assoc k d'
  end.

(** Decimal digits of an integer, [str(n)] for an [int]. *)
Definition str_of_Z (z : Z) : pystr := lit (NilZero.string_of_int (Z.to_int z)).

(** ** Exceptions *)

(** The classes of [Exception] that occur.  [str(e)] is the message. *)
Inductive exn_class : Type :=
| AttributeError
| TypeError
| UnboundLocalError
| FileNotFoundError
| JSONDecodeError
| PlaywrightError
| PlaywrightTimeout
| UnicodeDecodeError
| OSError.

Record exn : Type := Exn { exn_cls : exn_class; exn_msg : pystr }.

Inductive result (A : Type) : Type :=
| Ok (a : A)
| Raise (e : exn).
Arguments Ok {A} a.
Arguments Raise {A} e.

(** ** Records of the script *)

Record cookie : Type := Cookie { cookie_name : pystr; cookie_value : pystr }.

(** The dictionary [login_and_extract] returns.  Keys absent from the
    dictionary of one of the two [return] statements are [None] here, which is
    what [info.get] gives for them. *)
Record info_dict : Type := Info {
  success : bool;
  error : option pystr;
  session_cookie : option pystr;
  api_user : option pystr;
  current_url : option pystr;
  all_cookies : option (list (pystr * pystr))
}.

(** One entry of the output file. *)
Record out_item : Type := OutItem {
  out_name : pystr;
  out_provider : pystr;
  out_api_user : pystr;
  out_cookies_session : pystr
}.

(** ** The outside world *)

Record response : Type := Response {
  status : Z;
  body : result json          (* [response.json()] *)
}.

(** What one page answers to the calls [login_and_extract] makes on it. *)
Record page : Type := Page {
  goto_login : result unit;
  dialog_count : result nat;          (* [close_button.count()] *)
  dialog_click : result unit;         (* [close_button.first.click] *)
  wait_form : result unit;            (* [page.wait_for_selector] *)
  fill_username : result unit;
  fill_password : result unit;
  click_submit : result unit;
  url : pystr;
  cookies : result (list cookie);     (* [page.context.cookies()] *)
  goto_user_info : result (option response);
  local_storage : result pystr        (* [page.evaluate(...)] *)
}.

(** The browser: the launch, and for the record at position [idx] the
    context and the page opened for it. *)
Record world : Type := World {
  launch : result unit;
  new_context : nat -> result unit;
  new_page : nat -> result page
}.

(** What [open] and [json.load] give for [user.json]. *)
Inductive load_result : Type :=
| LoadMissing                       (* [FileNotFoundError] *)
| LoadMalformed (msg : pystr)       (* [json.JSONDecodeError] *)
| LoadOther (e : exn)               (* any other exception *)
| Loaded (user_list : json).

(** ** Events *)

Inductive message : Type :=
| MsgStep (n : nat)                       (* progress lines of the login *)
| MsgCaught (e : exn)                     (* a line printing a caught [e] *)
| MsgError (e : exn)                      (* line 129 *)
| MsgMissingFile
| MsgBadJson (msg : pystr)
| MsgNoUsers
| MsgSkip (position : Z)
| MsgLogin (position : Z) (provider username : pystr)
| MsgWait
| MsgDone                                 (* line 215 *)
| MsgCount (count : nat)                  (* line 216 *)
| MsgHint.                                (* line 217 *)

Inductive event : Type :=
| EvPrint (m : message)
| EvSleep (seconds : Z)
| EvStartPlaywright
| EvStopPlaywright
| EvLaunch
| EvNewContext (idx : nat)
| EvNewPage (idx : nat)
| EvCloseContext (idx : nat)
| EvCloseBrowser
| EvGoto (path : pystr)
| EvDialogCount
| EvDialogClick
| EvWaitForm
| EvFill (field value : pystr)
| EvSubmit
| EvReadCookies
| EvReadLocalStorage
| EvWriteOutput (items : list out_item).

(** ** The state of a run and its monad *)

(** [info] is the local variable of [main]; [None] while it is unbound. *)
Record state : Type := State {
  trace : list event;
  results : list out_item;
  info : option info_dict;
  written : option (list out_item)   (* what this run wrote to the output file *)
}.

(** The state in which [main] starts: nothing done, no local bound. *)
Definition init : state :=
  {| trace := []; results := []; info := None; written := None |}.

Definition M (A : Type) : Type := state -> state * result A.

Definition ret {A} (a : A) : M A := fun s => (s, Ok a).
Definition raise {A} (e : exn) : M A := fun s => (s, Raise e).

Definition bind {A B} (m : M A) (k : A -> M B) : M B :=
  fun s => match m s with
           | (s', Ok a) => k a s'
           | (s', Raise e) => (s', Raise e)
           end.

Notation "x <- m ;; k" := (bind m (fun x => k))
  (at level 61, m at next level, right associativity).
Notation "m ;; k" := (bind m (fun _ => k))
  (at level 61, right associativity).

(** [try: m  except Exception as e: h e] *)
Definition try_except {A} (m : M A) (h : exn -> M A) : M A :=
  fun s => match m s with
           | (s', Ok a) => (s', Ok a)
           | (s', Raise e) => h e s'
           end.

(** [try: m  finally: f], for an [f] that returns no value. *)
Definition try_finally {A} (m : M A) (f : M unit) : M A :=
  fun s => match m s with
           | (s', r) => match f s' with
                        | (s'', Ok _) => (s'', r)
                        | (s'', Raise e) => (s'', Raise e)
                        end
           end.

(** The state after the events [evs]. *)
Definition log (evs : list event) (s : state) : state :=
  {| trace := trace s ++ evs; results := results s;
     info := info s; written := written s |}.

Definition emit (ev : event) : M unit := fun s => (log [ev] s, Ok tt).

Definition print (m : message) : M unit := emit (EvPrint m).
Definition sleep (seconds : Z) : M unit := emit (EvSleep seconds).

(** A call to the outside: the event, then the oracle's answer. *)
Definition call {A} (ev : event) (r : result A) : M A :=
  emit ev ;; match r with Ok a => ret a | Raise e => raise e end.

(** ** [login_and_extract] *)

Definition type_name (j : json) : pystr :=
  match j with
  | JNull => lit "NoneType"
  | JBool _ => lit "bool"
  | JInt _ => lit "int"
  | JFloat _ _ => lit "float"
  | JStr _ => lit "str"
  | JList _ => lit "list"
  | JDict _ => lit "dict"
  end.

(** The [AttributeError] of [j.attr] for a [j] without that attribute. *)
Definition no_attribute (j : json) (attr : string) : exn :=
  Exn AttributeError
      (lit "'" ++ type_name j ++ lit "' object has no attribute '"
           ++ lit attr ++ lit "'").

(** [d.get(k)], [None] when the key is absent. *)
Definition dict_get (k : string) (d : list (pystr * json)) : json :=
  match assoc (lit k) d with Some v => v | None => JNull end.

(** [d[k] = v] on a dictionary kept in insertion order. *)
Fixpoint dict_set {A : Type} (k : pystr) (v : A) (d : list (pystr * A))
  : list (pystr * A) :=
  match d with
  | [] => [(k, v)]
  | (k', v') :: d' =>
      if pystr_eqb k k' then (k', v) :: d' else (k', v') :: dict_set k v d'
  end.

(** Lines 78-82: the value of the first cookie named [session]. *)
Fixpoint find_session (cs : list cookie) : option pystr :=
  match cs with
  | [] => None
  | c :: cs' =>
      if pystr_eqb (cookie_name c) (lit "session")
      then Some (cookie_value c)
      else find_session cs'
  end.

Definition truthy_opt (o : option pystr) : bool :=
  match o with Some (_ :: _) => true | _ => false end.

Section Script.

(** [json.loads] and the [str()] of lists and dictionaries belong to the
    interpreter; the script is read for any such functions. *)
Variable json_loads : pystr -> result json.
Variable str_container : json -> pystr.

(** [str(j)] *)
Definition py_str (j : json) : pystr :=
  match j with
  | JNull => lit "None"
  | JBool true => lit "True"
  | JBool false => lit "False"
  | JInt z => str_of_Z z
  | JFloat _ shown => shown
  | JStr s => s
  | JList _ | JDict _ => str_container j
  end.

(** Lines 45-54: the announcement dialog, closed when there is one. *)
Definition dismiss_dialog (pg : page) : M unit :=
  try_except
    (print (MsgStep 2) ;;
     n <- call EvDialogCount (dialog_count pg) ;;
     if (0 <? n)%nat
     then call EvDialogClick (dialog_click pg) ;;
          print (MsgStep 3) ;;
          sleep 1
     else ret tt)
    (fun e => print (MsgCaught e)).

(** Lines 90-99: the user-info endpoint.  The value is [api_user] after the
    block, [JNull] for [None]. *)
Definition api_user_from_endpoint (pg : page) : M json :=
  try_except
    (r <- call (EvGoto (lit "/api/user/info")) (goto_user_info pg) ;;
     match r with
     | Some resp =>
         if status resp =? 200
         then
           user_data <- (match body resp with
                         | Ok j => ret j
                         | Raise e => raise e
                         end) ;;
           print (MsgStep 10) ;;
           match user_data with
           | JDict d =>
               match (match assoc (lit "data") d with
                      | Some v => v
                      | None => JDict []
                      end) with
               | JDict data =>
                   let id := dict_get "id" data in
                   if truthy id then ret id else ret (dict_get "user_id" data)
               | other => raise (no_attribute other "get")
               end
           | _ => ret JNull
           end
         else ret JNull
     | None => ret JNull
     end)
    (fun e => print (MsgCaught e) ;; ret JNull).

(** Lines 107-114: the first entry of local storage whose value decodes to a
    dictionary with an [id] key; [api_user] is left as it was when there is
    none. *)
Fixpoint scan_storage (items : list (pystr * json)) (api_user0 : json) : json :=
  match items with
  | [] => api_user0
  | (_, value) :: items' =>
      match value with
      | JStr s =>
          match json_loads s with
          | Ok (JDict data) =>
              match assoc (lit "id") data with
              | Some id => id
              | None => scan_storage items' api_user0
              end
          | _ => scan_storage items' api_user0
          end
      | _ => scan_storage items' api_user0
      end
  end.

(** Lines 102-116. *)
Definition api_user_from_storage (pg : page) (api_user0 : json) : M json :=
  try_except
    (local <- call EvReadLocalStorage (local_storage pg) ;;
     print (MsgStep 11) ;;
     match json_loads local with
     | Ok (JDict items) => ret (scan_storage items api_user0)
     | Ok other => raise (no_attribute other "items")
     | Raise e => raise e
     end)
    (fun e => print (MsgCaught e) ;; ret api_user0).

(** The dictionary of the [except] branch, lines 130-135. *)
Definition failure (e : exn) : info_dict :=
  {| success := false; error := Some (exn_msg e);
     session_cookie := None; api_user := None;
     current_url := None; all_cookies := None |}.

(** Lines 40-126, the body of the outer [try]. *)
Definition login_steps (pg : page) (username password : pystr) : M info_dict :=
  print (MsgStep 1) ;;
  call (EvGoto (lit "/login")) (goto_login pg) ;;
  dismiss_dialog pg ;;
  call EvWaitForm (wait_form pg) ;;
  print (MsgStep 4) ;;
  call (EvFill (lit "username") username) (fill_username pg) ;;
  call (EvFill (lit "password") password) (fill_password pg) ;;
  print (MsgStep 5) ;;
  call EvSubmit (click_submit pg) ;;
  print (MsgStep 6) ;;
  sleep 3 ;;
  print (MsgStep 7) ;;
  cs <- call EvReadCookies (cookies pg) ;;
  let session := find_session cs in
  print (MsgStep 8) ;;
  api1 <- api_user_from_endpoint pg ;;
  api2 <- (if truthy api1 then ret api1 else api_user_from_storage pg api1) ;;
  print (MsgStep 9) ;;
  ret {| success := truthy_opt session || truthy api2;
         error := None;
         session_cookie := session;
         api_user := if truthy api2 then Some (py_str api2) else None;
         current_url := Some (url pg);
         all_cookies :=
           Some (fold_left
                   (fun d c => dict_set (cookie_name c) (cookie_value c) d)
                   cs []) |}.

Definition login_and_extract (pg : page) (username password : pystr)
  : M info_dict :=
  try_except (login_steps pg username password)
             (fun e => print (MsgError e) ;; ret (failure e)).

End Script.

(** ** [main] *)

(** Lines 162-165: [user.get(key, "").strip()]. *)
Definition get_strip (user : json) (key : string) : M pystr :=
  match user with
  | JDict d =>
      match (match assoc (lit key) d with Some v => v | None => JStr [] end) with
      | JStr s => ret (strip s)
      | other => raise (no_attribute other "strip")
      end
  | other => raise (no_attribute other "get")
  end.

Definition is_empty (s : pystr) : bool :=
  match s with [] => true | _ => false end.

(** The provider used when a record names none. *)
Definition default_provider : pystr := lit "anyrouter.top".

(** [f"账号{idx+1}"]: the code points of the two characters, then the
    position in decimal. *)
Definition default_name (idx : nat) : pystr :=
  [36134%N; 21495%N] ++ str_of_Z (Z.of_nat idx + 1).

(** [info.get(key) or ""] *)
Definition get_or_empty (o : option pystr) : pystr :=
  match o with Some (c :: s) => c :: s | _ => [] end.

(** Reading the local [info]: an [UnboundLocalError] while it is unbound
    (the message is the one of CPython 3.11 and later). *)
Definition unbound_info : exn :=
  Exn UnboundLocalError
      (lit "cannot access local variable 'info' where it is not associated with a value").

Definition read_info : M info_dict :=
  fun s => match info s with
           | Some i => (s, Ok i)
           | None => (s, Raise unbound_info)
           end.

Definition assign_info (i : info_dict) : M unit :=
  fun s => ({| trace := trace s; results := results s;
               info := Some i; written := written s |}, Ok tt).

Definition append_result (item : out_item) : M unit :=
  fun s => ({| trace := trace s; results := results s ++ [item];
               info := info s; written := written s |}, Ok tt).

(** Lines 212-213. *)
Definition write_output : M unit :=
  fun s => ({| trace := trace s ++ [EvWriteOutput (results s)];
               results := results s;
               info := info s; written := Some (results s) |}, Ok tt).

Definition get_results : M (list out_item) := fun s => (s, Ok (results s)).

(** [enumerate(user_list)]: the elements a [for] loop visits. *)
Definition iterate (user_list : json) : M (list json) :=
  match user_list with
  | JList l => ret l
  | JDict d => ret (map (fun kv => JStr (fst kv)) d)
  | JStr s => ret (map (fun c => JStr [c]) s)
  | other =>
      raise (Exn TypeError
                 (lit "'" ++ type_name other ++ lit "' object is not iterable"))
  end.

Section Main.

Variable json_loads : pystr -> result json.
Variable str_container : json -> pystr.
Variable w : world.

(** Lines 183-201: the [try] block of one account and its [finally]. *)
Definition login_block (idx : nat) (pg : page)
           (name provider username password : pystr) : M unit :=
  try_finally
    (i <- read_info ;;
     let api := get_or_empty (api_user i) in
     i' <- read_info ;;
     let item := {| out_name := name; out_provider := provider;
                    out_api_user := api;
                    out_cookies_session := get_or_empty (session_cookie i') |} in
     new_info <- login_and_extract json_loads str_container pg username password ;;
     assign_info new_info ;;
     append_result item)
    (emit (EvCloseContext idx)).

(** Lines 161-206: the body of the loop for the record at position [idx] of
    a list of [n] records. *)
Definition process_user (n idx : nat) (user : json) : M unit :=
  name0 <- get_strip user "name" ;;
  provider0 <- get_strip user "provider" ;;
  username <- get_strip user "username" ;;
  password <- get_strip user "password" ;;
  let provider := if is_empty provider0 then default_provider else provider0 in
  let name := if is_empty name0 then default_name idx else name0 in
  if is_empty username || is_empty password
  then print (MsgSkip (Z.of_nat idx + 1))
  else
    print (MsgLogin (Z.of_nat idx + 1) provider username) ;;
    call (EvNewContext idx) (new_context w idx) ;;
    pg <- call (EvNewPage idx) (new_page w idx) ;;
    login_block idx pg name provider username password ;;
    if Z.of_nat idx <? Z.of_nat n - 1
    then print MsgWait ;; sleep 2
    else ret tt.

Fixpoint for_users (n idx : nat) (users : list json) : M unit :=
  match users with
  | [] => ret tt
  | user :: rest => process_user n idx user ;; for_users n (S idx) rest
  end.

(** Lines 155-209: the [with sync_playwright()] block. *)
Definition browser_block (user_list : json) : M unit :=
  emit EvStartPlaywright ;;
  try_finally
    (print (MsgStep 0) ;;
     call EvLaunch (launch w) ;;
     users <- iterate user_list ;;
     for_users (List.length users) 0 users ;;
     emit EvCloseBrowser)
    (emit EvStopPlaywright).

Definition main_body (config : load_result) : M unit :=
  match config with
  | LoadMissing => print MsgMissingFile
  | LoadMalformed msg => print (MsgBadJson msg)
  | LoadOther e => raise e
  | Loaded user_list =>
      if negb (truthy user_list)
      then print MsgNoUsers
      else
        browser_block user_list ;;
        write_output ;;
        print MsgDone ;;
        rs <- get_results ;;
        print (MsgCount (List.length rs)) ;;
        print MsgHint
  end.

(** A run of the script: [main] from its initial state. *)
Definition main (config : load_result) : state * result unit :=
  main_body config init.

End Main.

(** ** Records with and without credentials *)

(** The stripped value of a field of a record, empty when the key is
    absent. *)
Definition field (d : list (pystr * json)) (key : string) : pystr :=
  match assoc (lit key) d with
  | Some (JStr s) => strip s
  | _ => []
  end.

(** A record of the configuration: a dictionary whose four fields, where
    present, are strings. *)
Definition is_record (user : json) : bool :=
  match user with
  | JDict d =>
      forallb (fun key => match assoc (lit key) d with
                          | Some (JStr _) | None => true
                          | Some _ => false
                          end)
              ["name"; "provider"; "username"; "password"]%string
  | _ => false
  end.

(** Username and password are both non-empty after stripping. *)
Definition has_credentials (user : json) : bool :=
  match user with
  | JDict d =>
      negb (is_empty (field d "username")) && negb (is_empty (field d "password"))
  | _ => false
  end.

(** The skip notices of the records at positions [idx], [idx+1], ... *)
Definition skip_events (idx count : nat) : list event :=
  map (fun i => EvPrint (MsgSkip (Z.of_nat i + 1))) (seq idx count).

(** ** Sample inputs *)

Module Sample.

Definition account (username password : string) : json :=
  JDict [(lit "username", JStr (lit username));
         (lit "password", JStr (lit password))].

(** The page of the scenario of the specification: the cookie
    [session=XYZ], and a user-info endpoint that answers
    [{"data": {"id": 42}}]. *)
Definition page_xyz : page :=
  {| goto_login := Ok tt; dialog_count := Ok 0%nat; dialog_click := Ok tt;
     wait_form := Ok tt; fill_username := Ok tt; fill_password := Ok tt;
     click_submit := Ok tt; url := lit "https://anyrouter.top/console";
     cookies := Ok [Cookie (lit "session") (lit "XYZ")];
     goto_user_info :=
       Ok (Some (Response 200
                   (Ok (JDict [(lit "data", JDict [(lit "id", JInt 42)])]))));
     local_storage := Ok (lit "{}") |}.

Definition browser : world :=
  {| launch := Ok tt;
     new_context := fun _ => Ok tt;
     new_page := fun _ => Ok page_xyz |}.

(** A browser that cannot be launched. *)
Definition no_browser : world :=
  {| launch := Raise (Exn PlaywrightError (lit "Executable doesn't exist"));
     new_context := fun _ => Ok tt;
     new_page := fun _ => Ok page_xyz |}.

(** A browser that opens contexts but no page. *)
Definition no_page : world :=
  {| launch := Ok tt;
     new_context := fun _ => Ok tt;
     new_page := fun _ => Raise (Exn PlaywrightError
                                     (lit "Target page, context or browser has been closed")) |}.

(** A page whose announcement dialog cannot be clicked away. *)
Definition page_stuck_dialog : page :=
  {| goto_login := Ok tt; dialog_count := Ok 1%nat;
     dialog_click := Raise (Exn PlaywrightTimeout (lit "Timeout 2000ms exceeded"));
     wait_form := Ok tt; fill_username := Ok tt; fill_password := Ok tt;
     click_submit := Ok tt; url := lit "https://anyrouter.top/console";
     cookies := Ok [Cookie (lit "session") (lit "XYZ")];
     goto_user_info :=
       Ok (Some (Response 200
                   (Ok (JDict [(lit "data", JDict [(lit "id", JInt 42)])]))));
     local_storage := Ok (lit "{}") |}.

(** A page whose login form never shows. *)
Definition page_no_form : page :=
  {| goto_login := Ok tt; dialog_count := Ok 0%nat; dialog_click := Ok tt;
     wait_form := Raise (Exn PlaywrightTimeout (lit "Timeout 10000ms exceeded"));
     fill_username := Ok tt; fill_password := Ok tt;
     click_submit := Ok tt; url := lit "https://anyrouter.top/login";
     cookies := Ok [];
     goto_user_info := Ok None;
     local_storage := Ok (lit "{}") |}.

(** A page without session cookie whose endpoint answers 401 and whose
    local storage holds a user object under one key. *)
Definition page_storage : page :=
  {| goto_login := Ok tt; dialog_count := Ok 0%nat; dialog_click := Ok tt;
     wait_form := Ok tt; fill_username := Ok tt; fill_password := Ok tt;
     click_submit := Ok tt; url := lit "https://anyrouter.top/console";
     cookies := Ok [Cookie (lit "lang") (lit "zh")];
     goto_user_info := Ok (Some (Response 401 (Ok (JDict []))));
     local_storage := Ok (lit "STORAGE") |}.

(** A parser that knows three texts: the empty object, a storage object
    with one entry, and the user object of that entry. *)
Definition loads (s : pystr) : result json :=
  if pystr_eqb s (lit "{}") then Ok (JDict [])
  else if pystr_eqb s (lit "STORAGE")
       then Ok (JDict [(lit "theme", JStr (lit "dark"));
                       (lit "user", JStr (lit "USER"))])
  else if pystr_eqb s (lit "USER") then Ok (JDict [(lit "id", JInt 7)])
  else Raise (Exn JSONDecodeError (lit "Expecting value")).

Definition str_container (j : json) : pystr := lit "[...]".

(** A state in which [info] is bound, to a failure record. *)
Definition bound : state :=
  {| trace := []; results := [];
     info := Some {| success := false; error := Some (lit "earlier");
                     session_cookie := None; api_user := None;
                     current_url := None; all_cookies := None |};
     written := None |}.

(** A page with two cookies named [session], whose endpoint answers 401
    and whose local storage is empty. *)
Definition page_two_sessions : page :=
  {| goto_login := Ok tt; dialog_count := Ok 0%nat; dialog_click := Ok tt;
     wait_form := Ok tt; fill_username := Ok tt; fill_password := Ok tt;
     click_submit := Ok tt; url := lit "https://anyrouter.top/console";
     cookies := Ok [Cookie (lit "lang") (lit "zh");
                    Cookie (lit "session") (lit "OLD");
                    Cookie (lit "session") (lit "NEW")];
     goto_user_info := Ok (Some (Response 401 (Ok (JDict []))));
     local_storage := Ok (lit "{}") |}.

End Sample.

(** ** Computations that only log *)

(** [io m evs r]: whatever the state, [m] logs [evs], gives [r] and changes
    nothing else. *)
Definition io {A} (m : M A) (evs : list event) (r : result A) : Prop :=
  forall s, m s = (log evs s, r).

(** [total m]: [m] only logs and returns a value. *)
Definition total {A} (m : M A) : Prop := exists evs a, io m evs (Ok a).

(** [logs m]: [m] only logs, and returns or raises. *)
Definition logs {A} (m : M A) : Prop := exists evs r, io m evs r.

(** The first of the calls of [login_and_extract] outside the inner [try]
    blocks that raises, in the order of the source: navigation, the wait for
    the form, the two fills, the submit, the read of the cookies. *)
Definition first_failure (pg : page) : option exn :=
  match goto_login pg with
  | Raise e => Some e
  | Ok _ =>
  match wait_form pg with
  | Raise e => Some e
  | Ok _ =>
  match fill_username pg with
  | Raise e => Some e
  | Ok _ =>
  match fill_password pg with
  | Raise e => Some e
  | Ok _ =>
  match click_submit pg with
  | Raise e => Some e
  | Ok _ =>
  match cookies pg with
  | Raise e => Some e
  | Ok _ => None
  end end end end end end.

(** ** What a run of [main] can and cannot log *)

(** Name and provider that lines 162-171 compute for the record [d] at
    position [idx]. *)
Definition provider_of (d : list (pystr * json)) : pystr :=
  if is_empty (field d "provider") then default_provider else field d "provider".

Definition name_of (idx : nat) (d : list (pystr * json)) : pystr :=
  if is_empty (field d "name") then default_name idx else field d "name".

(** The events of lines 204-206 after the record at position [idx] of [n]. *)
Definition delay_events (n idx : nat) : list event :=
  if Z.of_nat idx <? Z.of_nat n - 1 then [EvPrint MsgWait; EvSleep 2] else [].

(** Events of the loop that are no step of a login, no delay and no write
    of the output file. *)
Definition idle (ev : event) : bool :=
  match ev with
  | EvPrint (MsgStep 0) | EvPrint (MsgSkip _) | EvPrint (MsgLogin _ _ _)
  | EvStartPlaywright | EvStopPlaywright | EvLaunch | EvCloseBrowser
  | EvNewContext _ | EvNewPage _ | EvCloseContext _ => true
  | _ => false
  end.

(** Events that are no step of a login, no delay and no write of an
    account to the output file. *)
Definition no_account (ev : event) : bool :=
  match ev with
  | EvGoto _ | EvDialogCount | EvDialogClick | EvWaitForm | EvFill _ _
  | EvSubmit | EvReadCookies | EvReadLocalStorage | EvSleep _
  | EvWriteOutput (_ :: _) | EvPrint MsgWait => false
  | _ => true
  end.

(** The trace of a run that stops at the first account: the context and the
    page are opened and the context is closed, nothing else. *)
Definition stopped_at_first_account : list event :=
  [EvStartPlaywright; EvPrint (MsgStep 0); EvLaunch;
   EvPrint (MsgLogin 1 (lit "anyrouter.top") (lit "a"));
   EvNewContext 0; EvNewPage 0; EvCloseContext 0; EvStopPlaywright].

(** ** Traces and predicates for the properties of the two functions *)

(** What lines 45-54 log, by what the dialog answers. *)
Definition dialog_trace (pg : page) : list event :=
  [EvPrint (MsgStep 2); EvDialogCount]
  ++ match dialog_count pg with
     | Raise e => [EvPrint (MsgCaught e)]
     | Ok O => []
     | Ok (S _) =>
         EvDialogClick
           :: match dialog_click pg with
              | Ok _ => [EvPrint (MsgStep 3); EvSleep 1]
              | Raise e => [EvPrint (MsgCaught e)]
              end
     end.

(** What lines 57-84 log when every call returns. *)
Definition form_trace (username password : pystr) : list event :=
  [EvWaitForm; EvPrint (MsgStep 4);
   EvFill (lit "username") username; EvFill (lit "password") password;
   EvPrint (MsgStep 5); EvSubmit; EvPrint (MsgStep 6); EvSleep 3;
   EvPrint (MsgStep 7); EvReadCookies; EvPrint (MsgStep 8)].

(** The page [pg] with another announcement dialog. *)
Definition with_dialog (count : result nat) (click : result unit) (pg : page)
  : page :=
  {| goto_login := goto_login pg;
     dialog_count := count; dialog_click := click;
     wait_form := wait_form pg;
     fill_username := fill_username pg; fill_password := fill_password pg;
     click_submit := click_submit pg; url := url pg;
     cookies := cookies pg;
     goto_user_info := goto_user_info pg;
     local_storage := local_storage pg |}.

(** The dictionary of line 125. *)
Definition cookie_dict (cs : list cookie) : list (pystr * pystr) :=
  fold_left (fun d c => dict_set (cookie_name c) (cookie_value c) d) cs [].

Definition is_some {A : Type} (o : option A) : bool :=
  match o with Some _ => true | None => false end.

(** The two look-ups of the user id. *)
Definition asks_endpoint (ev : event) : bool :=
  match ev with
  | EvGoto path => pystr_eqb path (lit "/api/user/info")
  | _ => false
  end.

Definition reads_storage (ev : event) : bool :=
  match ev with EvReadLocalStorage => true | _ => false end.

(** The endpoint gives nothing to look at: the navigation raises, there is
    no response, or its status is not 200. *)
Definition endpoint_silent (pg : page) : bool :=
  match goto_user_info pg with
  | Raise _ => true
  | Ok None => true
  | Ok (Some resp) => negb (status resp =? 200)
  end.

(** An entry of local storage whose value decodes to a dictionary with an
    [id] key. *)
Definition has_id (json_loads : pystr -> result json) (entry : pystr * json)
  : bool :=
  match snd entry with
  | JStr s =>
      match json_loads s with
      | Ok (JDict data) => is_some (assoc (lit "id") data)
      | _ => false
      end
  | _ => false
  end.

(** Local storage gives no id: it cannot be read, is no JSON object, or has
    no entry with an [id]. *)
Definition storage_without_id (json_loads : pystr -> result json) (pg : page)
  : bool :=
  match local_storage pg with
  | Raise _ => true
  | Ok text =>
      match json_loads text with
      | Ok (JDict items) => negb (existsb (has_id json_loads) items)
      | _ => true
      end
  end.

(** The value of the first cookie named [k]. *)
Fixpoint find_cookie (k : pystr) (cs : list cookie) : option pystr :=
  match cs with
  | [] => None
  | c :: cs' =>
      if pystr_eqb (cookie_name c) k then Some (cookie_value c)
      else find_cookie k cs'
  end.

Definition closes_context (ev : event) : bool :=
  match ev with EvCloseContext _ => true | _ => false end.

Definition named_session (c : cookie) : bool :=
  pystr_eqb (cookie_name c) (lit "session").

(** A field that is absent or holds white space only. *)
Definition blank (d : list (pystr * json)) (key : string) : bool :=
  match assoc (lit key) d with
  | Some (JStr v) => forallb is_space v
  | _ => true
  end.

Definition opens_context (ev : event) : bool :=
  match ev with EvNewContext _ => true | _ => false end.

Definition opens_page (ev : event) : bool :=
  match ev with EvNewPage _ => true | _ => false end.

Definition count_events (f : event -> bool) (evs : list event) : nat :=
  List.length (filter f evs).

(** The trace with which every run on a browser that launches begins. *)
Definition start_trace : list event :=
  [EvStartPlaywright; EvPrint (MsgStep 0); EvLaunch].

Create HintDb script.

(** * Properties *)

(** ** Lemmas on logging *)

Lemma log_log (a b : list event) (s : state) :
  log b (log a s) = log (a ++ b) s.
Proof.
  unfold log; simpl. now rewrite app_assoc.
Qed.

Lemma log_nil (s : state) : log [] s = s.
Proof.
  destruct s; unfold log; simpl. now rewrite app_nil_r.
Qed.

Lemma io_ret {A} (a : A) : io (ret a) [] (Ok a).
Proof. intro s. unfold ret. now rewrite log_nil. Qed.

Lemma io_raise {A} (e : exn) : io (@raise A e) [] (Raise e).
Proof. intro s. unfold raise. now rewrite log_nil. Qed.

Lemma io_emit (ev : event) : io (emit ev) [ev] (Ok tt).
Proof. intro s. reflexivity. Qed.

Lemma io_call {A} (ev : event) (r : result A) : io (call ev r) [ev] r.
Proof.
  intro s. unfold call, bind, emit, ret, raise. now destruct r.
Qed.

Lemma io_bind_ok {A B} (m : M A) (k : A -> M B) evs a evs' r :
  io m evs (Ok a) -> io (k a) evs' r -> io (bind m k) (evs ++ evs') r.
Proof.
  intros Hm Hk s. unfold bind. rewrite Hm, Hk. now rewrite log_log.
Qed.

Lemma io_bind_raise {A B} (m : M A) (k : A -> M B) evs e :
  io m evs (Raise e) -> io (bind m k) evs (Raise e).
Proof.
  intros Hm s. unfold bind. now rewrite Hm.
Qed.

Lemma io_try_ok {A} (m : M A) (h : exn -> M A) evs a :
  io m evs (Ok a) -> io (try_except m h) evs (Ok a).
Proof.
  intros Hm s. unfold try_except. now rewrite Hm.
Qed.

Lemma io_try_caught {A} (m : M A) (h : exn -> M A) evs e evs' r :
  io m evs (Raise e) -> io (h e) evs' r -> io (try_except m h) (evs ++ evs') r.
Proof.
  intros Hm Hh s. unfold try_except. rewrite Hm, Hh. now rewrite log_log.
Qed.

Lemma total_logs {A} (m : M A) : total m -> logs m.
Proof. intros (evs & a & H). now exists evs, (Ok a). Qed.

Lemma logs_ret {A} (a : A) : logs (ret a).
Proof. eexists _, _. apply io_ret. Qed.

Lemma logs_raise {A} (e : exn) : logs (@raise A e).
Proof. eexists _, _. apply io_raise. Qed.

Lemma logs_emit (ev : event) : logs (emit ev).
Proof. eexists _, _. apply io_emit. Qed.

Lemma logs_call {A} (ev : event) (r : result A) : logs (call ev r).
Proof. eexists _, _. apply io_call. Qed.

Lemma logs_bind {A B} (m : M A) (k : A -> M B) :
  logs m -> (forall a, logs (k a)) -> logs (bind m k).
Proof.
  intros (evs & [a | e] & Hm) Hk.
  - destruct (Hk a) as (evs' & r & Hka).
    eexists _, _. eapply io_bind_ok; eauto.
  - eexists _, _. eapply io_bind_raise; eauto.
Qed.

Lemma total_try {A} (m : M A) (h : exn -> M A) :
  logs m -> (forall e, total (h e)) -> total (try_except m h).
Proof.
  intros (evs & [a | e] & Hm) Hh.
  - eexists _, _. eapply io_try_ok; eauto.
  - destruct (Hh e) as (evs' & a & Hhe).
    eexists _, _. eapply io_try_caught; eauto.
Qed.

Lemma total_bind {A B} (m : M A) (k : A -> M B) :
  total m -> (forall a, total (k a)) -> total (bind m k).
Proof.
  intros (evs & a & Hm) Hk.
  destruct (Hk a) as (evs' & b & Hka).
  eexists _, _. eapply io_bind_ok; eauto.
Qed.

Lemma total_ret {A} (a : A) : total (ret a).
Proof. eexists _, _. apply io_ret. Qed.

Lemma total_emit (ev : event) : total (emit ev).
Proof. eexists _, _. apply io_emit. Qed.

#[local] Hint Resolve logs_ret logs_raise logs_emit logs_call total_ret
  total_emit total_logs : script.

(** Splits a computation along its binds, branches and handlers. *)
Ltac logs_step :=
  match goal with
  | |- logs (bind _ _) => apply logs_bind; [| intros ]
  | |- total (bind _ _) => apply total_bind; [| intros ]
  | |- total (try_except _ _) => apply total_try; [| intros ]
  | |- logs (try_except _ _) => apply total_logs, total_try; [| intros ]
  | |- logs (print _) => apply logs_emit
  | |- logs (sleep _) => apply logs_emit
  | |- total (print _) => apply total_emit
  | |- logs (match ?x with _ => _ end) => destruct x
  | |- total (match ?x with _ => _ end) => destruct x
  | |- _ => solve [ auto with script ]
  end.

(** ** [login_and_extract] contains its errors *)

Section LoginProperties.

Variable json_loads : pystr -> result json.
Variable str_container : json -> pystr.

Lemma dismiss_dialog_total (pg : page) : total (dismiss_dialog pg).
Proof.
  unfold dismiss_dialog. repeat logs_step.
Qed.

Lemma api_user_from_endpoint_total (pg : page) :
  total (api_user_from_endpoint pg).
Proof.
  unfold api_user_from_endpoint. repeat logs_step.
Qed.

Lemma api_user_from_storage_total (pg : page) (api_user0 : json) :
  total (api_user_from_storage json_loads pg api_user0).
Proof.
  unfold api_user_from_storage. repeat logs_step.
Qed.

(** One step of a trace through binds: a call that raises ends it, any
    other primitive continues it. *)
Ltac io_walk known :=
  repeat first
    [ eapply io_bind_raise; apply io_call
    | eapply io_bind_ok;
      [ first [ apply io_emit | apply io_call | known ] | cbv beta ] ].

(** [login_and_extract] returns whatever the page answers, with the failure
    record of the first call that raised outside the inner [try] blocks. *)
Lemma login_and_extract_returns :
  forall (pg : page) (username password : pystr),
  exists evs i,
    io (login_and_extract json_loads str_container pg username password)
       evs (Ok i)
    /\ match first_failure pg with
       | Some e => i = failure e
       | None =>
           error i = None
           /\ exists cs, cookies pg = Ok cs
                         /\ session_cookie i = find_session cs
       end.
Proof.
  intros pg username password.
  destruct (dismiss_dialog_total pg) as (dl & [] & Hd).
  destruct (api_user_from_endpoint_total pg) as (el & api1 & He).
  destruct (api_user_from_storage_total pg api1) as (sl & api2 & Hs).
  unfold login_and_extract, login_steps, first_failure.
  destruct (goto_login pg) as [[] | e];
    [ destruct (wait_form pg) as [[] | e];
      [ destruct (fill_username pg) as [[] | e];
        [ destruct (fill_password pg) as [[] | e];
          [ destruct (click_submit pg) as [[] | e];
            [ destruct (cookies pg) as [cs | e] | ] | ] | ] | ] | ].
  1: { (* every step succeeded *)
       destruct (truthy api1) eqn:T1;
         (eexists _, _; split;
          [ apply io_try_ok; io_walk ltac:(first [exact Hd | exact He | exact Hs]);
            first [ rewrite T1 | idtac ];
            io_walk ltac:(first [exact Hd | exact He | exact Hs | apply io_ret]);
            apply io_ret
          | cbn; split; [reflexivity | exists cs; split; reflexivity] ]). }
  all: eexists _, _; (split; [| reflexivity]);
    (eapply io_try_caught;
     [ io_walk ltac:(exact Hd)
     | eapply io_bind_ok; [apply io_emit | apply io_ret] ]).
Qed.

End LoginProperties.

(** ** The loop of [main] *)

Section MainProperties.

Variable json_loads : pystr -> result json.
Variable str_container : json -> pystr.
Variable w : world.

Notation process_user := (process_user json_loads str_container w).
Notation for_users := (for_users json_loads str_container w).
Notation login_block := (login_block json_loads str_container).
Notation main := (main json_loads str_container w).

Lemma bind_ok {A B} (m : M A) (k : A -> M B) s s' a :
  m s = (s', Ok a) -> bind m k s = k a s'.
Proof. intro H. unfold bind. now rewrite H. Qed.

Lemma bind_raise {A B} (m : M A) (k : A -> M B) s s' e :
  m s = (s', Raise e) -> bind m k s = (s', Raise e).
Proof. intro H. unfold bind. now rewrite H. Qed.

(** [get_strip] leaves the state alone; on a dictionary it gives the
    stripped field or raises on a value that is no string. *)
Lemma get_strip_dict (d : list (pystr * json)) (key : string) (s : state) :
  match assoc (lit key) d with
  | Some (JStr _) | None => get_strip (JDict d) key s = (s, Ok (field d key))
  | Some other => get_strip (JDict d) key s = (s, Raise (no_attribute other "strip"))
  end.
Proof.
  unfold get_strip, field.
  destruct (assoc (lit key) d) as [[] |]; reflexivity.
Qed.

Lemma get_strip_cases (user : json) (key : string) (s : state) :
  (exists e, get_strip user key s = (s, Raise e))
  \/ (exists d, user = JDict d /\ get_strip user key s = (s, Ok (field d key))).
Proof.
  destruct user as [| b | z | nz sh | str | l | d];
    try (left; eexists; reflexivity).
  pose proof (get_strip_dict d key s) as H.
  destruct (assoc (lit key) d) as [[] |];
    solve [ left; eexists; exact H | right; exists d; split; [reflexivity | exact H] ].
Qed.

Lemma get_strip_record (d : list (pystr * json)) (s : state) :
  is_record (JDict d) = true ->
  get_strip (JDict d) "name" s = (s, Ok (field d "name"))
  /\ get_strip (JDict d) "provider" s = (s, Ok (field d "provider"))
  /\ get_strip (JDict d) "username" s = (s, Ok (field d "username"))
  /\ get_strip (JDict d) "password" s = (s, Ok (field d "password")).
Proof.
  unfold is_record, forallb. intro H.
  repeat (apply andb_prop in H; destruct H as [? H]).
  repeat split;
    match goal with
    | |- get_strip _ ?key _ = _ =>
        pose proof (get_strip_dict d key s) as G;
        destruct (assoc (lit key) d) as [[] |]; solve [exact G | discriminate]
    end.
Qed.

(** While [info] is unbound the block of an account closes the context and
    raises, before any step of the login. *)
Lemma login_block_unbound idx pg name provider username password s :
  info s = None ->
  login_block idx pg name provider username password s
  = (log [EvCloseContext idx] s, Raise unbound_info).
Proof.
  intro H. unfold login_block, try_finally, bind, read_info. now rewrite H.
Qed.

(** The loop body on a record, with the four fields read. *)
Lemma process_user_record n idx d s :
  is_record (JDict d) = true ->
  process_user n idx (JDict d) s
  = (if is_empty (field d "username") || is_empty (field d "password")
     then print (MsgSkip (Z.of_nat idx + 1))
     else
       print (MsgLogin (Z.of_nat idx + 1) (provider_of d) (field d "username")) ;;
       call (EvNewContext idx) (new_context w idx) ;;
       pg <- call (EvNewPage idx) (new_page w idx) ;;
       login_block idx pg (name_of idx d) (provider_of d)
                   (field d "username") (field d "password") ;;
       if Z.of_nat idx <? Z.of_nat n - 1
       then print MsgWait ;; sleep 2
       else ret tt) s.
Proof.
  intro R. unfold process_user.
  destruct (get_strip_record d s R) as (Hn & Hp & Hu & Hw).
  rewrite (bind_ok _ _ _ _ _ Hn), (bind_ok _ _ _ _ _ Hp),
    (bind_ok _ _ _ _ _ Hu), (bind_ok _ _ _ _ _ Hw).
  reflexivity.
Qed.

(** A record without credentials is skipped with a notice. *)
Lemma process_user_skip n idx user s :
  is_record user = true -> has_credentials user = false ->
  process_user n idx user s = (log [EvPrint (MsgSkip (Z.of_nat idx + 1))] s, Ok tt).
Proof.
  intros R C. destruct user as [| | | | | | d]; try discriminate.
  rewrite (process_user_record _ _ _ _ R).
  unfold has_credentials in C. rewrite <- negb_orb in C.
  apply negb_false_iff in C. now rewrite C.
Qed.

(** The first record with credentials, met while [info] is unbound. *)
Lemma process_user_first n idx d s :
  is_record (JDict d) = true -> has_credentials (JDict d) = true ->
  info s = None ->
  process_user n idx (JDict d) s
  = let login := EvPrint (MsgLogin (Z.of_nat idx + 1) (provider_of d)
                                   (field d "username")) in
    match new_context w idx with
    | Raise e => (log [login; EvNewContext idx] s, Raise e)
    | Ok _ =>
        match new_page w idx with
        | Raise e => (log [login; EvNewContext idx; EvNewPage idx] s, Raise e)
        | Ok _ =>
            (log [login; EvNewContext idx; EvNewPage idx; EvCloseContext idx] s,
             Raise unbound_info)
        end
    end.
Proof.
  intros R C U. rewrite (process_user_record _ _ _ _ R).
  unfold has_credentials in C. rewrite <- negb_orb in C.
  apply negb_true_iff in C. rewrite C. cbv zeta.
  unfold bind at 1. unfold print, emit at 1.
  unfold bind at 1. rewrite io_call.
  destruct (new_context w idx) as [[] | e]; [| now rewrite log_log].
  unfold bind at 1. rewrite io_call.
  destruct (new_page w idx) as [pg | e]; [| now rewrite !log_log].
  unfold bind at 1. rewrite login_block_unbound by exact U.
  now rewrite !log_log.
Qed.

(** Anything else than a record raises at the first field that cannot be
    read, before anything is logged. *)
Lemma process_user_not_record n idx user s :
  is_record user = false ->
  exists e, process_user n idx user s = (s, Raise e).
Proof.
  intro R. unfold process_user.
  destruct user as [| b | z | nz sh | str | l | d];
    try (eexists; apply bind_raise; reflexivity).
  unfold is_record, forallb in R.
  pose proof (get_strip_dict d "name" s) as Hn.
  pose proof (get_strip_dict d "provider" s) as Hp.
  pose proof (get_strip_dict d "username" s) as Hu.
  pose proof (get_strip_dict d "password" s) as Hw.
  destruct (assoc (lit "name") d) as [[] |];
    try (eexists; apply bind_raise; exact Hn);
    rewrite (bind_ok _ _ _ _ _ Hn);
    (destruct (assoc (lit "provider") d) as [[] |];
     try (eexists; apply bind_raise; exact Hp);
     rewrite (bind_ok _ _ _ _ _ Hp);
     (destruct (assoc (lit "username") d) as [[] |];
      try (eexists; apply bind_raise; exact Hu);
      rewrite (bind_ok _ _ _ _ _ Hu);
      (destruct (assoc (lit "password") d) as [[] |];
       try (eexists; apply bind_raise; exact Hw);
       discriminate R))).
Qed.

(** One turn of the loop while [info] is unbound: it logs idle events only,
    leaves [info] unbound, and returns only for a record it skips. *)
Lemma process_user_unbound n idx user s :
  info s = None ->
  exists evs r,
    process_user n idx user s = (log evs s, r)
    /\ forallb idle evs = true
    /\ match r with
       | Ok _ => has_credentials user = false
                 /\ evs = [EvPrint (MsgSkip (Z.of_nat idx + 1))]
       | Raise _ => True
       end.
Proof.
  intro U. destruct (is_record user) eqn:R.
  - destruct (has_credentials user) eqn:C.
    + destruct user as [| | | | | | d]; try discriminate.
      rewrite (process_user_first _ _ _ _ R C U). cbv zeta.
      destruct (new_context w idx) as [[] | e];
        [destruct (new_page w idx) as [pg | e] |];
        eexists _, _; (split; [reflexivity |]); split; auto.
    + rewrite (process_user_skip _ _ _ _ R C).
      eexists _, _; (split; [reflexivity |]); split; auto.
  - destruct (process_user_not_record n idx user s R) as [e He].
    exists [], (Raise e). rewrite He, log_nil. auto.
Qed.

(** The loop while [info] is unbound. *)
Lemma for_users_unbound n users : forall idx s,
  info s = None ->
  exists evs r,
    for_users n idx users s = (log evs s, r)
    /\ forallb idle evs = true
    /\ match r with
       | Ok _ => existsb has_credentials users = false
                 /\ evs = skip_events idx (List.length users)
       | Raise _ => True
       end.
Proof.
  induction users as [| user rest IH]; intros idx s U.
  - exists [], (Ok tt). cbn. rewrite log_nil. auto.
  - cbn [for_users].
    destruct (process_user_unbound n idx user s U) as (evs & r & E & I & P).
    destruct r as [[] | e].
    + destruct P as [C ->].
      rewrite (bind_ok _ _ _ _ _ E).
      destruct (IH (S idx) (log [EvPrint (MsgSkip (Z.of_nat idx + 1))] s) U)
        as (evs' & r' & E' & I' & P').
      rewrite E', log_log.
      eexists _, r'. split; [reflexivity |]. split.
      * cbn. exact I'.
      * destruct r'; [| exact Logic.I].
        destruct P' as [C' ->]. cbn. rewrite C. auto.
    + rewrite (bind_raise _ _ _ _ _ E). now exists evs, (Raise e).
Qed.

(** Records without credentials in front of the list are skipped one by
    one. *)
Lemma for_users_skip n rest : forall skipped idx s,
  forallb is_record skipped = true ->
  existsb has_credentials skipped = false ->
  for_users n idx (skipped ++ rest) s
  = for_users n (idx + List.length skipped) rest
              (log (skip_events idx (List.length skipped)) s).
Proof.
  induction skipped as [| user skipped IH]; intros idx s R C.
  - cbn. now rewrite Nat.add_0_r, log_nil.
  - cbn in R, C. apply andb_prop in R. destruct R as [Ru R].
    apply orb_false_elim in C. destruct C as [Cu C].
    cbn [app for_users].
    rewrite (bind_ok _ _ _ _ _ (process_user_skip n idx user s Ru Cu)).
    rewrite (IH (S idx) _ R C), log_log.
    cbn [List.length]. now rewrite Nat.add_succ_r.
Qed.

(** The list up to its first record with credentials. *)
Lemma first_with_credentials (users : list json) :
  forallb is_record users = true ->
  existsb has_credentials users = true ->
  exists skipped d rest,
    users = skipped ++ JDict d :: rest
    /\ forallb is_record skipped = true
    /\ existsb has_credentials skipped = false
    /\ is_record (JDict d) = true
    /\ has_credentials (JDict d) = true.
Proof.
  induction users as [| user users IH]; [discriminate |].
  cbn. intros R C. apply andb_prop in R. destruct R as [Ru R].
  destruct (has_credentials user) eqn:Cu.
  - destruct user as [| | | | | | d]; try discriminate.
    exists [], d, users. auto.
  - destruct (IH R C) as (skipped & d & rest & -> & Rs & Cs & Rd & Cd).
    exists (user :: skipped), d, rest. cbn. rewrite Ru, Cu. auto.
Qed.

(** The [with] block, by the result of the launch and of the loop. *)
Lemma browser_block_eq (user_list : json) (s : state) :
  browser_block json_loads str_container w user_list s
  = let s0 := log [EvStartPlaywright; EvPrint (MsgStep 0); EvLaunch] s in
    match launch w with
    | Raise e => (log [EvStopPlaywright] s0, Raise e)
    | Ok _ =>
        match iterate user_list s0 with
        | (s1, Raise e) => (log [EvStopPlaywright] s1, Raise e)
        | (s1, Ok users) =>
            match for_users (List.length users) 0 users s1 with
            | (s2, Raise e) => (log [EvStopPlaywright] s2, Raise e)
            | (s2, Ok _) => (log [EvCloseBrowser; EvStopPlaywright] s2, Ok tt)
            end
        end
    end.
Proof.
  unfold browser_block. cbv zeta.
  unfold bind at 1. unfold emit at 1. unfold try_finally.
  unfold bind at 1. unfold print at 1, emit at 1.
  unfold bind at 1. rewrite io_call, !log_log. cbn [app].
  destruct (launch w) as [[] | e];
    [| unfold emit; now rewrite !log_log ].
  unfold bind at 1.
  destruct (iterate user_list _) as [s1 [users | e]]; [| reflexivity].
  unfold bind at 1.
  destruct (for_users _ _ _ _) as [s2 [[] | e]]; [| reflexivity].
  unfold emit. now rewrite log_log.
Qed.

Lemma log_init (evs : list event) :
  log evs init
  = {| trace := evs; results := []; info := None; written := None |}.
Proof. reflexivity. Qed.

(** C7 (amended).  When [user.json] is missing, or [json.load] raises a
    [JSONDecodeError], the run prints the error and returns.  When reading
    the file raises any other exception, the run prints nothing and ends with
    that exception.  In the three cases no browser is started, no login is
    attempted and nothing is written. *)
Theorem C7_configuration_error_halts_the_run :
  forall (msg : pystr) (e : exn),
    main LoadMissing
    = ({| trace := [EvPrint MsgMissingFile]; results := [];
          info := None; written := None |}, Ok tt)
    /\ main (LoadMalformed msg)
       = ({| trace := [EvPrint (MsgBadJson msg)]; results := [];
             info := None; written := None |}, Ok tt)
    /\ match exn_cls e with
       | FileNotFoundError | JSONDecodeError => True
       | _ =>
           main (LoadOther e)
           = ({| trace := []; results := []; info := None; written := None |},
              Raise e)
       end.
Proof.
  intros msg e. repeat split; try reflexivity.
  destruct (exn_cls e); solve [exact Logic.I | reflexivity].
Qed.

(** C10.  When [user.json] holds an empty list, the run prints a notice and
    returns: no browser is started and nothing is written. *)
Theorem C10_empty_list_returns_early :
  main (Loaded (JList []))
  = ({| trace := [EvPrint MsgNoUsers]; results := [];
        info := None; written := None |}, Ok tt).
Proof.
  reflexivity.
Qed.

(** C5 (amended).  When the configuration is a list of records of which one
    at least has credentials, the run ends with an exception, has appended no
    result and written no output file, and has logged no step of a login.
    When the
    browser starts and opens the context and the page of the first record
    with credentials, the exception is the [UnboundLocalError] of [info],
    raised where the output record is built: the run has skipped the records
    before it, opened its context and page, closed the context and stopped,
    and [login_and_extract] was never called. *)
Theorem C5_unbound_info_ends_the_run :
  forall users : list json,
    forallb is_record users = true ->
    existsb has_credentials users = true ->
    exists skipped d rest evs e,
      users = skipped ++ JDict d :: rest
      /\ existsb has_credentials skipped = false
      /\ has_credentials (JDict d) = true
      /\ main (Loaded (JList users))
         = ({| trace := evs; results := []; info := None; written := None |},
            Raise e)
      /\ forallb idle evs = true
      /\ let k := List.length skipped in
         forall pg,
           launch w = Ok tt -> new_context w k = Ok tt -> new_page w k = Ok pg ->
           e = unbound_info
           /\ evs = [EvStartPlaywright; EvPrint (MsgStep 0); EvLaunch]
                    ++ skip_events 0 k
                    ++ [EvPrint (MsgLogin (Z.of_nat k + 1) (provider_of d)
                                          (field d "username"));
                        EvNewContext k; EvNewPage k; EvCloseContext k;
                        EvStopPlaywright].
Proof.
  intros users R C.
  destruct (first_with_credentials users R C)
    as (skipped & d & rest & -> & Rs & Cs & Rd & Cd).
  exists skipped, d, rest.
  assert (T : truthy (JList (skipped ++ JDict d :: rest)) = true)
    by (destruct skipped; reflexivity).
  assert (I : forallb idle (skip_events 0 (List.length skipped)) = true).
  { unfold skip_events. generalize (seq 0 (List.length skipped)).
    induction l; cbn; auto. }
  unfold main, main_body. rewrite T. cbn [negb].
  unfold bind at 1. rewrite browser_block_eq. cbv zeta.
  destruct (launch w) as [[] | e].
  2: { eexists _, e. repeat split; auto; try discriminate. }
  cbn [iterate ret].
  rewrite (for_users_skip _ _ _ _ _ Rs Cs). cbn [for_users Nat.add].
  unfold bind at 1.
  rewrite (process_user_first _ _ _ _ Rd Cd) by reflexivity. cbv zeta.
  rewrite !log_log.
  destruct (new_context w (List.length skipped)) as [[] | e];
    [ destruct (new_page w (List.length skipped)) as [pg | e] |];
    rewrite !log_log, log_init;
    (eexists _, _; repeat split; auto; try discriminate;
     try (rewrite !forallb_app, I; reflexivity);
     try (now rewrite <- !app_assoc)).
Qed.

Lemma idle_no_account (evs : list event) :
  forallb idle evs = true -> forallb no_account evs = true.
Proof.
  induction evs as [| ev evs IH]; [reflexivity |].
  cbn. intro H. apply andb_prop in H. destruct H as [Hev H].
  rewrite (IH H), andb_true_r.
  destruct ev as [[[] | | | | | | | | | | |] | | | | | | | | | | | | | | | | |];
    solve [reflexivity | discriminate].
Qed.

(** No run reports an account.  Whatever the configuration and the browser,
    [main] ends with no result appended, with [info] unbound, with the output
    file unwritten or holding the empty list, and without a step of a login
    or a delay in its trace. *)
Lemma main_reports_no_account (config : load_result) :
  exists evs out r,
    main config
    = ({| trace := evs; results := []; info := None; written := out |}, r)
    /\ (out = None \/ out = Some [])
    /\ forallb no_account evs = true.
Proof.
  destruct config as [| msg | e | user_list];
    try (eexists _, _, _; split; [reflexivity | split; [left |]; reflexivity]).
  unfold main, main_body.
  destruct (truthy user_list);
    [| eexists _, _, _; split; [reflexivity | split; [left |]; reflexivity] ].
  cbn [negb]. unfold bind at 1. rewrite browser_block_eq. cbv zeta.
  destruct (launch w) as [[] | e];
    [| eexists _, _, _; split; [reflexivity | split; [left |]; reflexivity] ].
  assert (L : forall users,
             exists evs out r,
               match
                 match for_users (List.length users) 0 users
                         (log [EvStartPlaywright; EvPrint (MsgStep 0); EvLaunch]
                              init)
                 with
                 | (s2, Raise e) => (log [EvStopPlaywright] s2, Raise e)
                 | (s2, Ok _) => (log [EvCloseBrowser; EvStopPlaywright] s2, Ok tt)
                 end
               with
               | (s', Raise e) => (s', Raise e)
               | (s', Ok _) =>
                   (write_output ;; print MsgDone ;; rs <- get_results ;;
                    print (MsgCount (List.length rs)) ;; print MsgHint) s'
               end
               = ({| trace := evs; results := []; info := None; written := out |}, r)
               /\ (out = None \/ out = Some [])
               /\ forallb no_account evs = true).
  { intro users.
    destruct (for_users_unbound (List.length users) users 0
                (log [EvStartPlaywright; EvPrint (MsgStep 0); EvLaunch] init)
                eq_refl) as (evs & r & -> & I & _).
    apply idle_no_account in I.
    destruct r as [[] | e]; rewrite !log_log, log_init.
    - eexists _, _, _. split; [reflexivity |]. split; [right; reflexivity |].
      cbn. rewrite !forallb_app, I. reflexivity.
    - eexists _, _, _. split; [reflexivity |]. split; [left; reflexivity |].
      cbn. rewrite !forallb_app, I. reflexivity. }
  destruct user_list as [| b | z | nz sh | str | l | d];
    try (eexists _, _, _; split; [reflexivity | split; [left |]; reflexivity]);
    cbn [iterate ret]; apply L.
Qed.

(** The block of an account when [info] is bound: the record is built from
    the binding found, the login runs, and the context is closed last. *)
Lemma login_block_bound idx pg name provider username password s i :
  info s = Some i ->
  exists steps i',
    io (login_and_extract json_loads str_container pg username password)
       steps (Ok i')
    /\ login_block idx pg name provider username password s
       = ({| trace := trace s ++ steps ++ [EvCloseContext idx];
             results := results s
                        ++ [{| out_name := name; out_provider := provider;
                               out_api_user := get_or_empty (api_user i);
                               out_cookies_session :=
                                 get_or_empty (session_cookie i) |}];
             info := Some i';
             written := written s |}, Ok tt).
Proof.
  intro B.
  destruct (login_and_extract_returns json_loads str_container
              pg username password) as (steps & i' & L & _).
  exists steps, i'. split; [exact L |].
  unfold login_block, try_finally, bind, read_info.
  rewrite B; cbv beta iota. rewrite B; cbv beta iota. rewrite L.
  unfold assign_info, append_result, emit, log. cbn.
  now rewrite app_assoc.
Qed.

(** For a record with credentials whose context and page were opened,
    the turn of the loop closes the context after everything done on the
    page, on both of its ways out: when building the output record raises
    (no step of a login was made), and when the login ran and the turn ends
    normally, whether [login_and_extract] gave a success or a failure
    record. *)
Theorem context_closed_once_the_page_is_open :
  forall (n idx : nat) (d : list (pystr * json)) (pg : page) (s : state),
    is_record (JDict d) = true ->
    has_credentials (JDict d) = true ->
    new_context w idx = Ok tt ->
    new_page w idx = Ok pg ->
    exists s' r steps after,
      process_user n idx (JDict d) s = (s', r)
      /\ trace s'
         = trace s
           ++ [EvPrint (MsgLogin (Z.of_nat idx + 1) (provider_of d)
                                 (field d "username"));
               EvNewContext idx; EvNewPage idx]
           ++ steps ++ [EvCloseContext idx] ++ after
      /\ ((info s = None /\ steps = [] /\ r = Raise unbound_info /\ after = [])
          \/ (exists i',
                 info s <> None
                 /\ io (login_and_extract json_loads str_container pg
                                          (field d "username") (field d "password"))
                       steps (Ok i')
                 /\ r = Ok tt /\ after = delay_events n idx)).
Proof.
  intros n idx d pg s R C NC NP.
  destruct (info s) as [i |] eqn:B.
  - rewrite (process_user_record _ _ _ _ R).
    unfold has_credentials in C. rewrite <- negb_orb in C.
    apply negb_true_iff in C. rewrite C.
    unfold bind at 1. unfold print at 1, emit at 1.
    unfold bind at 1. rewrite io_call, NC.
    unfold bind at 1. rewrite io_call, NP. rewrite !log_log. cbn [app].
    destruct (login_block_bound idx pg (name_of idx d) (provider_of d)
                (field d "username") (field d "password")
                (log [EvPrint (MsgLogin (Z.of_nat idx + 1) (provider_of d)
                                        (field d "username"));
                      EvNewContext idx; EvNewPage idx] s) i B)
      as (steps & i' & L & E).
    unfold bind at 1. rewrite E.
    unfold delay_events.
    destruct (Z.of_nat idx <? Z.of_nat n - 1);
      (eexists _, (Ok tt), steps, _; split; [reflexivity |]; split;
       [ cbn; rewrite <- !app_assoc; reflexivity
       | right; exists i'; repeat split; auto; discriminate ]).
  - rewrite (process_user_first _ _ _ _ R C B). cbv zeta. rewrite NC, NP.
    eexists _, _, [], []. split; [reflexivity |]. split; [reflexivity |].
    left. auto.
Qed.

(** An error of the launch is caught nowhere. *)
Lemma main_launch_error (user_list : json) (e : exn) :
  truthy user_list = true ->
  launch w = Raise e ->
  snd (main (Loaded user_list)) = Raise e.
Proof.
  intros T L. unfold main, main_body. rewrite T. cbn [negb].
  unfold bind at 1. rewrite browser_block_eq. cbv zeta.
  now rewrite L.
Qed.

End MainProperties.

(** ** The script on sample inputs *)

Module Run.

Import Sample.

Notation main := (main loads str_container).
Notation login_and_extract := (login_and_extract loads str_container).
Notation process_user := (process_user loads str_container).

(** With the cookie and the endpoint of the scenario, [login_and_extract]
    finds both the session and the id. *)
Example login_page_xyz :
  snd (login_and_extract page_xyz (lit "a") (lit "b") init)
  = Ok {| success := true; error := None;
          session_cookie := Some (lit "XYZ");
          api_user := Some (lit "42");
          current_url := Some (lit "https://anyrouter.top/console");
          all_cookies := Some [(lit "session", lit "XYZ")] |}.
Proof. reflexivity. Qed.

(** Without an answer of the endpoint the id comes from local storage. *)
Example login_page_storage :
  snd (login_and_extract page_storage (lit "a") (lit "b") init)
  = Ok {| success := true; error := None;
          session_cookie := None;
          api_user := Some (lit "7");
          current_url := Some (lit "https://anyrouter.top/console");
          all_cookies := Some [(lit "lang", lit "zh")] |}.
Proof. reflexivity. Qed.

(** A form that never shows gives the failure record of the timeout. *)
Example login_page_no_form :
  snd (login_and_extract page_no_form (lit "a") (lit "b") init)
  = Ok (failure (Exn PlaywrightTimeout (lit "Timeout 10000ms exceeded"))).
Proof. reflexivity. Qed.

(** Two records without credentials: both skipped, the empty list
    written. *)
Example main_all_skipped :
  main browser (Loaded (JList [JDict [(lit "username", JStr (lit "a"))];
                               JDict []]))
  = ({| trace := [EvStartPlaywright; EvPrint (MsgStep 0); EvLaunch;
                  EvPrint (MsgSkip 1); EvPrint (MsgSkip 2);
                  EvCloseBrowser; EvStopPlaywright;
                  EvWriteOutput []; EvPrint MsgDone; EvPrint (MsgCount 0);
                  EvPrint MsgHint];
        results := []; info := None; written := Some [] |}, Ok tt).
Proof. reflexivity. Qed.

End Run.

(** ** The run on the scenario of the specification *)

(** C1.  On the single record [{"username": "a", "password": "b"}], which
    has both credentials, the run raises the [UnboundLocalError] of [info] at
    that record and writes no output file, where the specification has one
    entry written. *)
Theorem C1_single_account_writes_nothing :
  main Sample.loads Sample.str_container Sample.browser
       (Loaded (JList [Sample.account "a" "b"]))
  = ({| trace := stopped_at_first_account;
        results := []; info := None; written := None |},
     Raise unbound_info).
Proof.
  reflexivity.
Qed.

(** C2.  With the cookie [session=XYZ] in the browser, [login_and_extract]
    would return [XYZ] as the session cookie, but the run never calls it: no
    record is appended and no file is written, so no output record carries
    the cookie. *)
Theorem C2_session_cookie_never_reaches_the_output :
  let page_result :=
    snd (login_and_extract Sample.loads Sample.str_container Sample.page_xyz
                           (lit "a") (lit "b") init) in
  let run :=
    fst (main Sample.loads Sample.str_container Sample.browser
              (Loaded (JList [Sample.account "a" "b"]))) in
  (exists i, page_result = Ok i /\ session_cookie i = Some (lit "XYZ"))
  /\ existsb (fun ev => match ev with EvReadCookies => true | _ => false end)
            (trace run) = false
  /\ results run = []
  /\ written run = None.
Proof.
  cbv zeta. split; [eexists; split; reflexivity |].
  repeat split; reflexivity.
Qed.

(** C3.  With a user-info endpoint that answers [{"data": {"id": 42}}],
    [login_and_extract] would return ["42"] as [api_user], but the run never
    asks the endpoint nor reads local storage: no record is appended and no
    file is written, so no output record carries the id. *)
Theorem C3_api_user_never_reaches_the_output :
  let page_result :=
    snd (login_and_extract Sample.loads Sample.str_container Sample.page_xyz
                           (lit "a") (lit "b") init) in
  let run :=
    fst (main Sample.loads Sample.str_container Sample.browser
              (Loaded (JList [Sample.account "a" "b"]))) in
  (exists i, page_result = Ok i /\ api_user i = Some (lit "42"))
  /\ existsb (fun ev => match ev with
                        | EvGoto _ | EvReadLocalStorage => true
                        | _ => false
                        end)
            (trace run) = false
  /\ results run = []
  /\ written run = None.
Proof.
  cbv zeta. split; [eexists; split; reflexivity |].
  repeat split; reflexivity.
Qed.

(** C9.  On two records with credentials the run stops at the first one:
    there is no delay after it and the second account is never started. *)
Theorem C9_no_delay_between_two_accounts :
  main Sample.loads Sample.str_container Sample.browser
       (Loaded (JList [Sample.account "a" "b"; Sample.account "c" "d"]))
  = ({| trace := stopped_at_first_account;
        results := []; info := None; written := None |},
     Raise unbound_info)
  /\ existsb (fun ev => match ev with EvSleep _ => true | _ => false end)
            stopped_at_first_account = false.
Proof.
  split; reflexivity.
Qed.

(** C4, as stated, fails twice.  An error of the browser launch is caught
    nowhere and ends the run, which is no error of the configuration load.
    And a click on the announcement dialog that times out is caught and
    printed, but the login goes on and returns a success record, not a
    failure record. *)
Lemma C4_errors_escape_or_vanish :
  main Sample.loads Sample.str_container Sample.no_browser
       (Loaded (JList [Sample.account "a" "b"]))
  = ({| trace := [EvStartPlaywright; EvPrint (MsgStep 0); EvLaunch;
                  EvStopPlaywright];
        results := []; info := None; written := None |},
     Raise (Exn PlaywrightError (lit "Executable doesn't exist")))
  /\ (let r := login_and_extract Sample.loads Sample.str_container
                                 Sample.page_stuck_dialog (lit "a") (lit "b") init in
      existsb (fun ev =>
                 match ev with
                 | EvPrint (MsgCaught (Exn PlaywrightTimeout _)) => true
                 | _ => false
                 end) (trace (fst r)) = true
      /\ snd r
         = Ok {| success := true; error := None;
                 session_cookie := Some (lit "XYZ");
                 api_user := Some (lit "42");
                 current_url := Some (lit "https://anyrouter.top/console");
                 all_cookies := Some [(lit "session", lit "XYZ")] |}).
Proof.
  cbv zeta. repeat split; reflexivity.
Qed.

(** C5 on the single record [{"username": "a", "password": "b"}]. *)
Lemma C5_unbound_info_ends_the_run_witness :
  exists skipped d rest evs e,
    [Sample.account "a" "b"] = skipped ++ JDict d :: rest
    /\ existsb has_credentials skipped = false
    /\ has_credentials (JDict d) = true
    /\ main Sample.loads Sample.str_container Sample.browser
            (Loaded (JList [Sample.account "a" "b"]))
       = ({| trace := evs; results := []; info := None; written := None |},
          Raise e)
    /\ forallb idle evs = true
    /\ let k := List.length skipped in
       forall pg,
         launch Sample.browser = Ok tt ->
         new_context Sample.browser k = Ok tt ->
         new_page Sample.browser k = Ok pg ->
         e = unbound_info
         /\ evs = [EvStartPlaywright; EvPrint (MsgStep 0); EvLaunch]
                  ++ skip_events 0 k
                  ++ [EvPrint (MsgLogin (Z.of_nat k + 1) (provider_of d)
                                        (field d "username"));
                      EvNewContext k; EvNewPage k; EvCloseContext k;
                      EvStopPlaywright].
Proof.
  apply (C5_unbound_info_ends_the_run
           Sample.loads Sample.str_container Sample.browser
           [Sample.account "a" "b"]); reflexivity.
Defined.

(** The turn of the record [{"username": "a", "password": "b"}], from the
    state in which [main] starts. *)
Lemma context_closed_once_the_page_is_open_witness :
  exists s' r steps after,
    process_user Sample.loads Sample.str_container Sample.browser 1 0
                 (Sample.account "a" "b") init = (s', r)
    /\ trace s'
       = trace init
         ++ [EvPrint (MsgLogin (Z.of_nat 0 + 1)
                               (provider_of [(lit "username", JStr (lit "a"));
                                             (lit "password", JStr (lit "b"))])
                               (field [(lit "username", JStr (lit "a"));
                                       (lit "password", JStr (lit "b"))]
                                      "username"));
             EvNewContext 0; EvNewPage 0]
         ++ steps ++ [EvCloseContext 0] ++ after
    /\ ((info init = None /\ steps = [] /\ r = Raise unbound_info /\ after = [])
        \/ (exists i',
               info init <> None
               /\ io (login_and_extract Sample.loads Sample.str_container
                                        Sample.page_xyz
                                        (field [(lit "username", JStr (lit "a"));
                                                (lit "password", JStr (lit "b"))]
                                               "username")
                                        (field [(lit "username", JStr (lit "a"));
                                                (lit "password", JStr (lit "b"))]
                                               "password"))
                     steps (Ok i')
               /\ r = Ok tt /\ after = delay_events 1 0)).
Proof.
  apply (context_closed_once_the_page_is_open
           Sample.loads Sample.str_container Sample.browser 1%nat 0%nat
           [(lit "username", JStr (lit "a")); (lit "password", JStr (lit "b"))]
           Sample.page_xyz init); reflexivity.
Defined.

(** * Further properties of [login_and_extract] *)

(** Follows a trace through binds, with [known] for the computations whose
    trace is at hand. *)
Ltac io_chain known :=
  repeat first
    [ eapply io_bind_raise; apply io_call
    | eapply io_bind_ok;
      [ first [ apply io_emit | apply io_call | known ] | cbv beta ] ].

Section LoginExtras.

Variable json_loads : pystr -> result json.
Variable str_container : json -> pystr.

Notation login_and_extract := (login_and_extract json_loads str_container).
Notation api_user_from_storage := (api_user_from_storage json_loads).
Notation scan_storage := (scan_storage json_loads).

(** A computation that only logs has one trace and one result. *)
Lemma io_functional {A} (m : M A) evs evs' (r r' : result A) :
  io m evs r -> io m evs' r' -> evs = evs' /\ r = r'.
Proof.
  intros H H'. specialize (H init). rewrite (H' init) in H.
  injection H as Ht Hr. split; [| now symmetry].
  unfold log in Ht. cbn in Ht. now symmetry.
Qed.

Lemma dismiss_dialog_io (pg : page) :
  io (dismiss_dialog pg) (dialog_trace pg) (Ok tt).
Proof.
  unfold dismiss_dialog, dialog_trace.
  destruct (dialog_count pg) as [[| n] | e].
  - apply io_try_ok.
    eapply (io_bind_ok _ _ [_]); [apply io_emit |].
    eapply (io_bind_ok _ _ [_] _ []); [apply io_call | apply io_ret].
  - destruct (dialog_click pg) as [[] | e].
    + apply io_try_ok.
      eapply (io_bind_ok _ _ [_]); [apply io_emit |].
      eapply (io_bind_ok _ _ [_]); [apply io_call |].
      eapply (io_bind_ok _ _ [_]); [apply io_call |].
      eapply (io_bind_ok _ _ [_] _ [_]); [apply io_emit | apply io_emit].
    + eapply (io_try_caught _ _ [_; _; _] _ [_]); [| apply io_emit].
      eapply (io_bind_ok _ _ [_]); [apply io_emit |].
      eapply (io_bind_ok _ _ [_]); [apply io_call |].
      eapply (io_bind_raise _ _ [_]). apply io_call.
  - eapply (io_try_caught _ _ [_; _] _ [_]); [| apply io_emit].
    eapply (io_bind_ok _ _ [_]); [apply io_emit |].
    eapply (io_bind_raise _ _ [_]). apply io_call.
Qed.

Lemma io_eq {A} (m : M A) evs evs' (r : result A) :
  io m evs r -> evs = evs' -> io m evs' r.
Proof. now intros H <-. Qed.

(** The six calls outside the inner [try] blocks all return. *)
Lemma first_failure_none (pg : page) :
  first_failure pg = None ->
  goto_login pg = Ok tt /\ wait_form pg = Ok tt
  /\ fill_username pg = Ok tt /\ fill_password pg = Ok tt
  /\ click_submit pg = Ok tt /\ exists cs, cookies pg = Ok cs.
Proof.
  unfold first_failure.
  destruct (goto_login pg) as [[] |]; [| discriminate].
  destruct (wait_form pg) as [[] |]; [| discriminate].
  destruct (fill_username pg) as [[] |]; [| discriminate].
  destruct (fill_password pg) as [[] |]; [| discriminate].
  destruct (click_submit pg) as [[] |]; [| discriminate].
  destruct (cookies pg) as [cs |]; [| discriminate].
  intros _. repeat split. now exists cs.
Qed.

(** The login when no call outside the inner [try] blocks raises: its trace
    and its record, by what the two look-ups of the id gave. *)
Lemma login_ok_path pg username password cs el api1 sl api2 :
  first_failure pg = None ->
  cookies pg = Ok cs ->
  io (api_user_from_endpoint pg) el (Ok api1) ->
  (if truthy api1 then sl = [] /\ api2 = api1
   else io (api_user_from_storage pg api1) sl (Ok api2)) ->
  io (login_and_extract pg username password)
     ([EvPrint (MsgStep 1); EvGoto (lit "/login")]
        ++ dialog_trace pg ++ form_trace username password
        ++ el ++ sl ++ [EvPrint (MsgStep 9)])
     (Ok {| success := truthy_opt (find_session cs) || truthy api2;
            error := None;
            session_cookie := find_session cs;
            api_user := if truthy api2 then Some (py_str str_container api2)
                        else None;
            current_url := Some (url pg);
            all_cookies := Some (cookie_dict cs) |}).
Proof.
  intros F C He Hs.
  destruct (first_failure_none pg F) as (G & W & FU & FP & S & _).
  pose proof (dismiss_dialog_io pg) as Hd.
  unfold login_and_extract, login_steps.
  rewrite G, W, FU, FP, S, C.
  apply io_try_ok.
  destruct (truthy api1) eqn:T.
  - destruct Hs as [-> ->].
    eapply io_eq.
    + io_chain ltac:(first [exact Hd | exact He]).
      rewrite T.
      io_chain ltac:(apply io_ret). rewrite ?T. apply io_ret.
    + unfold form_trace. cbn. rewrite <- ?app_assoc. cbn.
      rewrite ?app_nil_r. reflexivity.
  - eapply io_eq.
    + io_chain ltac:(first [exact Hd | exact He]).
      rewrite T.
      io_chain ltac:(exact Hs). apply io_ret.
    + unfold form_trace. cbn. rewrite <- ?app_assoc. cbn.
      rewrite ?app_nil_r. reflexivity.
Qed.

Lemma dialog_trace_no_lookup (pg : page) :
  existsb asks_endpoint (dialog_trace pg) = false
  /\ existsb reads_storage (dialog_trace pg) = false.
Proof.
  unfold dialog_trace.
  destruct (dialog_count pg) as [[| n] | e]; [now split | | now split].
  destruct (dialog_click pg) as [[] | e]; now split.
Qed.

(** The login in full: it returns the failure record of the first call that
    raised, or the record built from the cookies and the id found. *)
Lemma login_cases (pg : page) (username password : pystr) :
  exists evs i,
    io (login_and_extract pg username password) evs (Ok i)
    /\ match first_failure pg with
       | Some e => i = failure e
       | None =>
           exists cs api2,
             cookies pg = Ok cs
             /\ i = {| success := truthy_opt (find_session cs) || truthy api2;
                       error := None;
                       session_cookie := find_session cs;
                       api_user := if truthy api2
                                   then Some (py_str str_container api2)
                                   else None;
                       current_url := Some (url pg);
                       all_cookies := Some (cookie_dict cs) |}
       end.
Proof.
  destruct (first_failure pg) as [e |] eqn:F.
  - destruct (login_and_extract_returns json_loads str_container
                pg username password) as (evs & i & L & P).
    rewrite F in P. now exists evs, i.
  - destruct (first_failure_none pg F) as (_ & _ & _ & _ & _ & cs & C).
    destruct (api_user_from_endpoint_total pg) as (el & api1 & He).
    destruct (truthy api1) eqn:T.
    + eexists _, _. split.
      * apply (login_ok_path pg username password cs el api1 [] api1 F C He).
        now rewrite T.
      * now exists cs, api1.
    + destruct (api_user_from_storage_total json_loads pg api1)
        as (sl & api2 & Hs).
      eexists _, _. split.
      * apply (login_ok_path pg username password cs el api1 sl api2 F C He).
        now rewrite T.
      * now exists cs, api2.
Qed.

(** The [success] flag says that a non-empty session cookie or a user id was
    obtained, and a failure record is never a success. *)
Theorem success_means_cookie_or_id :
  forall (pg : page) (username password : pystr),
  exists evs i,
    io (login_and_extract pg username password) evs (Ok i)
    /\ success i = truthy_opt (session_cookie i) || is_some (api_user i)
    /\ (if is_some (error i) then success i = false else True).
Proof.
  intros pg username password.
  destruct (login_cases pg username password) as (evs & i & L & P).
  exists evs, i. split; [exact L |].
  destruct (first_failure pg) as [e |].
  - subst i. now split.
  - destruct P as (cs & api2 & _ & ->). cbn.
    destruct (truthy api2); now split.
Qed.

(** The announcement dialog has no influence on the record returned:
    whether it is absent, closed, or fails to close. *)
Theorem dialog_does_not_change_the_result :
  forall (pg : page) (count : result nat) (click : result unit)
         (username password : pystr) (s s' : state),
    snd (login_and_extract (with_dialog count click pg) username password s)
    = snd (login_and_extract pg username password s').
Proof.
  intros pg count click username password s s'.
  destruct (first_failure pg) as [e |] eqn:F.
  - destruct (login_and_extract_returns json_loads str_container
                pg username password) as (evs & i & L & P).
    destruct (login_and_extract_returns json_loads str_container
                (with_dialog count click pg) username password)
      as (evs' & i' & L' & P').
    change (first_failure (with_dialog count click pg))
      with (first_failure pg) in P'.
    rewrite F in P, P'. subst i i'. now rewrite L, L'.
  - destruct (first_failure_none pg F) as (_ & _ & _ & _ & _ & cs & C).
    destruct (api_user_from_endpoint_total pg) as (el & api1 & He).
    assert (exists sl api2,
               if truthy api1 then sl = [] /\ api2 = api1
               else io (api_user_from_storage pg api1) sl (Ok api2))
      as (sl & api2 & Hs).
    { destruct (truthy api1).
      - now exists [], api1.
      - destruct (api_user_from_storage_total json_loads pg api1)
          as (sl & api2 & Hs). now exists sl, api2. }
    rewrite (login_ok_path pg username password cs el api1 sl api2 F C He Hs s').
    rewrite (login_ok_path (with_dialog count click pg) username password
               cs el api1 sl api2 F C He Hs s).
    reflexivity.
Qed.

(** The endpoint block when the response has status 200 and a dictionary
    body whose [data] is a dictionary (or is absent). *)
Lemma endpoint_io_data pg resp doc data :
  goto_user_info pg = Ok (Some resp) ->
  status resp = 200 ->
  body resp = Ok (JDict doc) ->
  match assoc (lit "data") doc with Some v => v | None => JDict [] end
  = JDict data ->
  io (api_user_from_endpoint pg)
     [EvGoto (lit "/api/user/info"); EvPrint (MsgStep 10)]
     (Ok (if truthy (dict_get "id" data) then dict_get "id" data
          else dict_get "user_id" data)).
Proof.
  intros G S B D. unfold api_user_from_endpoint. rewrite G.
  apply io_try_ok.
  eapply (io_bind_ok _ _ [_]); [apply io_call |]. cbv beta iota.
  rewrite S, B. cbn [Z.eqb Pos.eqb].
  eapply (io_bind_ok _ _ [] _ [_]); [apply io_ret |]. cbv beta iota.
  eapply (io_bind_ok _ _ [_] _ []); [apply io_emit |]. cbv beta iota.
  rewrite D.
  destruct (truthy (dict_get "id" data)); apply io_ret.
Qed.

(** The endpoint block when there is nothing to look at. *)
Lemma endpoint_io_silent pg :
  endpoint_silent pg = true ->
  exists el,
    io (api_user_from_endpoint pg) el (Ok JNull)
    /\ existsb reads_storage el = false.
Proof.
  unfold endpoint_silent, api_user_from_endpoint. intro H.
  destruct (goto_user_info pg) as [[resp |] | e].
  - apply negb_true_iff in H.
    eexists. split.
    + apply io_try_ok.
      eapply (io_bind_ok _ _ [_] _ []); [apply io_call |].
      cbv beta iota. rewrite H. apply io_ret.
    + reflexivity.
  - eexists. split.
    + apply io_try_ok.
      eapply (io_bind_ok _ _ [_] _ []); [apply io_call | apply io_ret].
    + reflexivity.
  - eexists. split.
    + eapply (io_try_caught _ _ [_] _ [_]).
      * eapply (io_bind_raise _ _ [_]). apply io_call.
      * eapply (io_bind_ok _ _ [_] _ []); [apply io_emit | apply io_ret].
    + reflexivity.
Qed.

(** An id given by the user-info endpoint is the [api_user], and local
    storage is then never read: the [id] of the [data] of a response with
    status 200, or its [user_id] when [id] is absent or falsy. *)
Theorem endpoint_id_is_the_api_user :
  forall (pg : page) (username password : pystr) (resp : response)
         (doc data : list (pystr * json)),
    first_failure pg = None ->
    goto_user_info pg = Ok (Some resp) ->
    status resp = 200 ->
    body resp = Ok (JDict doc) ->
    match assoc (lit "data") doc with Some v => v | None => JDict [] end
    = JDict data ->
    let id := if truthy (dict_get "id" data) then dict_get "id" data
              else dict_get "user_id" data in
    truthy id = true ->
    exists evs i,
      io (login_and_extract pg username password) evs (Ok i)
      /\ api_user i = Some (py_str str_container id)
      /\ success i = true
      /\ existsb reads_storage evs = false.
Proof.
  intros pg username password resp doc data F G S B D id T.
  destruct (first_failure_none pg F) as (_ & _ & _ & _ & _ & cs & C).
  pose proof (endpoint_io_data pg resp doc data G S B D) as He.
  fold id in He.
  eexists _, _. split.
  - apply (login_ok_path pg username password cs _ id [] id F C He).
    now rewrite T.
  - split; [cbn; now rewrite T |].
    split; [cbn; rewrite T; apply orb_true_r |].
    rewrite !existsb_app.
    now rewrite (proj2 (dialog_trace_no_lookup pg)).
Qed.

Lemma scan_storage_none items api0 :
  existsb (has_id json_loads) items = false ->
  scan_storage items api0 = api0.
Proof.
  induction items as [| [key value] items IH]; [reflexivity |].
  cbn [existsb]. intro H. apply orb_false_elim in H. destruct H as [H1 H2].
  cbn [scan_storage]. unfold has_id in H1. cbn [snd] in H1.
  destruct value as [| | | | s | |]; try (now apply IH).
  destruct (json_loads s) as [[| | | | | | data] | e]; try (now apply IH).
  destruct (assoc (lit "id") data); [discriminate | now apply IH].
Qed.

Lemma scan_storage_first before key s after data id api0 :
  existsb (has_id json_loads) before = false ->
  json_loads s = Ok (JDict data) ->
  assoc (lit "id") data = Some id ->
  scan_storage (before ++ (key, JStr s) :: after) api0 = id.
Proof.
  intros H L A.
  induction before as [| [key' value] before IH].
  - cbn [app scan_storage]. now rewrite L, A.
  - cbn [existsb] in H. apply orb_false_elim in H. destruct H as [H1 H2].
    cbn [app scan_storage]. unfold has_id in H1. cbn [snd] in H1.
    destruct value as [| | | | s' | |]; try (now apply IH).
    destruct (json_loads s') as [[| | | | | | data'] | e]; try (now apply IH).
    destruct (assoc (lit "id") data'); [discriminate | now apply IH].
Qed.

Lemma storage_io pg api0 text items :
  local_storage pg = Ok text ->
  json_loads text = Ok (JDict items) ->
  io (api_user_from_storage pg api0)
     [EvReadLocalStorage; EvPrint (MsgStep 11)]
     (Ok (scan_storage items api0)).
Proof.
  intros L J. unfold api_user_from_storage. rewrite L.
  apply io_try_ok.
  eapply (io_bind_ok _ _ [_]); [apply io_call |]. cbv beta iota.
  eapply (io_bind_ok _ _ [_] _ []); [apply io_emit |]. cbv beta iota.
  rewrite J. apply io_ret.
Qed.

Lemma storage_io_nothing pg api0 :
  storage_without_id json_loads pg = true ->
  exists sl, io (api_user_from_storage pg api0) sl (Ok api0).
Proof.
  unfold storage_without_id. intro H.
  destruct (local_storage pg) as [text | e] eqn:L.
  - destruct (json_loads text) as [doc | e] eqn:J.
    + destruct doc as [| | | | | | items];
        try (eexists; unfold api_user_from_storage; rewrite L;
             eapply (io_try_caught _ _ [_; _] _ [_]);
             [ eapply (io_bind_ok _ _ [_]); [apply io_call |]; cbv beta iota;
               eapply (io_bind_ok _ _ [_] _ []); [apply io_emit |];
               cbv beta iota; rewrite J; apply io_raise
             | eapply (io_bind_ok _ _ [_] _ []); [apply io_emit | apply io_ret] ]).
      apply negb_true_iff in H.
      eexists. rewrite <- (scan_storage_none items api0 H) at 2.
      now apply (storage_io pg api0 text items).
    + eexists. unfold api_user_from_storage. rewrite L.
      eapply (io_try_caught _ _ [_; _] _ [_]).
      * eapply (io_bind_ok _ _ [_]); [apply io_call |]. cbv beta iota.
        eapply (io_bind_ok _ _ [_] _ []); [apply io_emit |].
        cbv beta iota. rewrite J. apply io_raise.
      * eapply (io_bind_ok _ _ [_] _ []); [apply io_emit | apply io_ret].
  - eexists. unfold api_user_from_storage. rewrite L.
    eapply (io_try_caught _ _ [_] _ [_]).
    + eapply (io_bind_raise _ _ [_]). apply io_call.
    + eapply (io_bind_ok _ _ [_] _ []); [apply io_emit | apply io_ret].
Qed.

(** When the endpoint gives nothing, the [api_user] is the [id] of the first
    entry of local storage whose value decodes to a dictionary with an [id]
    key, in the order of the storage; an [id] that is falsy gives no
    [api_user], also when a later entry has one. *)
Theorem storage_id_is_the_api_user :
  forall (pg : page) (username password text key s : pystr)
         (before after : list (pystr * json))
         (data : list (pystr * json)) (id : json),
    first_failure pg = None ->
    endpoint_silent pg = true ->
    local_storage pg = Ok text ->
    json_loads text = Ok (JDict (before ++ (key, JStr s) :: after)) ->
    existsb (has_id json_loads) before = false ->
    json_loads s = Ok (JDict data) ->
    assoc (lit "id") data = Some id ->
    exists evs i,
      io (login_and_extract pg username password) evs (Ok i)
      /\ api_user i = if truthy id then Some (py_str str_container id) else None.
Proof.
  intros pg username password text key s before after data id F E L J B D A.
  destruct (first_failure_none pg F) as (_ & _ & _ & _ & _ & cs & C).
  destruct (endpoint_io_silent pg E) as (el & He & _).
  pose proof (storage_io pg JNull text _ L J) as Hs.
  rewrite (scan_storage_first before key s after data id JNull B D A) in Hs.
  eexists _, _. split.
  - apply (login_ok_path pg username password cs el JNull _ id F C He Hs).
  - reflexivity.
Qed.

(** Finding no id is no error: when the endpoint gives nothing and local
    storage gives no id, the record has no [api_user] and no [error], and it
    is a success exactly when there is a non-empty session cookie. *)
Theorem no_id_is_no_error :
  forall (pg : page) (username password : pystr),
    first_failure pg = None ->
    endpoint_silent pg = true ->
    storage_without_id json_loads pg = true ->
    exists evs i,
      io (login_and_extract pg username password) evs (Ok i)
      /\ api_user i = None
      /\ error i = None
      /\ success i = truthy_opt (session_cookie i).
Proof.
  intros pg username password F E S.
  destruct (first_failure_none pg F) as (_ & _ & _ & _ & _ & cs & C).
  destruct (endpoint_io_silent pg E) as (el & He & _).
  destruct (storage_io_nothing pg JNull S) as (sl & Hs).
  eexists _, _. split.
  - apply (login_ok_path pg username password cs el JNull sl JNull F C He Hs).
  - cbn. now rewrite orb_false_r.
Qed.

Lemma pystr_eqb_eq (a b : pystr) : pystr_eqb a b = true <-> a = b.
Proof.
  unfold pystr_eqb. destruct (list_eq_dec N.eq_dec a b); split; congruence.
Qed.

Lemma pystr_eqb_refl (a : pystr) : pystr_eqb a a = true.
Proof. now apply pystr_eqb_eq. Qed.

Lemma pystr_eqb_sym (a b : pystr) : pystr_eqb a b = pystr_eqb b a.
Proof.
  destruct (pystr_eqb a b) eqn:E, (pystr_eqb b a) eqn:E'; try reflexivity.
  - apply pystr_eqb_eq in E. subst. now rewrite pystr_eqb_refl in E'.
  - apply pystr_eqb_eq in E'. subst. now rewrite pystr_eqb_refl in E.
Qed.

(** Look-up after [d[k] = v]. *)
Lemma assoc_dict_set {A} (k k' : pystr) (v : A) (d : list (pystr * A)) :
  assoc k' (dict_set k v d) = if pystr_eqb k' k then Some v else assoc k' d.
Proof.
  induction d as [| [k1 v1] d IH]; [reflexivity |].
  cbn [dict_set assoc].
  destruct (pystr_eqb k k1) eqn:E.
  - apply pystr_eqb_eq in E. subst k1. cbn [assoc].
    now destruct (pystr_eqb k' k).
  - cbn [assoc]. rewrite IH.
    destruct (pystr_eqb k' k1) eqn:E1, (pystr_eqb k' k) eqn:E2; try reflexivity.
    apply pystr_eqb_eq in E1, E2. subst. now rewrite pystr_eqb_refl in E.
Qed.

Lemma dict_set_key_in {A} (k k' : pystr) (v : A) (d : list (pystr * A)) :
  In k' (map fst (dict_set k v d)) -> k' = k \/ In k' (map fst d).
Proof.
  induction d as [| [k1 v1] d IH]; cbn [dict_set].
  - cbn. intuition.
  - destruct (pystr_eqb k k1); cbn; intuition.
Qed.

(** [d[k] = v] keeps the keys of a dictionary distinct. *)
Lemma dict_set_nodup {A} (k : pystr) (v : A) (d : list (pystr * A)) :
  NoDup (map fst d) -> NoDup (map fst (dict_set k v d)).
Proof.
  induction d as [| [k1 v1] d IH]; cbn [dict_set]; intro H.
  - cbn. constructor; [easy | constructor].
  - destruct (pystr_eqb k k1) eqn:E; [exact H |].
    cbn [map fst] in *. inversion H as [| ? ? N H']. subst.
    constructor; [| now apply IH].
    intro I. apply dict_set_key_in in I. destruct I as [-> | I]; [| easy].
    now rewrite pystr_eqb_refl in E.
Qed.

Lemma find_session_snoc (cs : list cookie) (c : cookie) :
  find_session (cs ++ [c])
  = match find_session cs with
    | Some v => Some v
    | None => if named_session c then Some (cookie_value c) else None
    end.
Proof.
  induction cs as [| c' cs IH]; [reflexivity |].
  cbn [app find_session]. now destruct (pystr_eqb (cookie_name c') (lit "session")).
Qed.

Lemma cookie_dict_session (cs : list cookie) : forall d,
  assoc (lit "session")
        (fold_left (fun d c => dict_set (cookie_name c) (cookie_value c) d) cs d)
  = match find_session (rev cs) with
    | Some v => Some v
    | None => assoc (lit "session") d
    end.
Proof.
  induction cs as [| c cs IH]; intro d; [reflexivity |].
  cbn [fold_left rev]. rewrite IH, find_session_snoc, assoc_dict_set.
  unfold named_session. rewrite (pystr_eqb_sym (lit "session")).
  destruct (find_session (rev cs)); [reflexivity |].
  now destruct (pystr_eqb (cookie_name c) (lit "session")).
Qed.

Lemma cookie_dict_nodup (cs : list cookie) : forall d,
  NoDup (map fst d) ->
  NoDup (map fst (fold_left
                    (fun d c => dict_set (cookie_name c) (cookie_value c) d)
                    cs d)).
Proof.
  induction cs as [| c cs IH]; intros d H; [exact H |].
  cbn [fold_left]. apply IH. now apply dict_set_nodup.
Qed.

Lemma find_session_first (before after : list cookie) (c : cookie) :
  named_session c = true ->
  existsb named_session before = false ->
  find_session (before ++ c :: after) = Some (cookie_value c).
Proof.
  intros N B. induction before as [| c' before IH].
  - cbn [app find_session]. unfold named_session in N. now rewrite N.
  - cbn [existsb] in B. apply orb_false_elim in B. destruct B as [B1 B2].
    cbn [app find_session]. unfold named_session in B1. rewrite B1.
    now apply IH.
Qed.

(** The session cookie of the record is the value of the first cookie
    named [session] in the list the browser gives, whatever cookies of that
    name follow it. *)
Theorem session_cookie_is_the_first :
  forall (pg : page) (username password : pystr)
         (before after : list cookie) (c : cookie),
    first_failure pg = None ->
    cookies pg = Ok (before ++ c :: after) ->
    named_session c = true ->
    existsb named_session before = false ->
    exists evs i,
      io (login_and_extract pg username password) evs (Ok i)
      /\ session_cookie i = Some (cookie_value c).
Proof.
  intros pg username password before after c F C N B.
  destruct (login_cases pg username password) as (evs & i & L & P).
  rewrite F in P. destruct P as (cs & api2 & C' & ->).
  rewrite C in C'. injection C' as <-.
  exists evs. eexists. split; [exact L |].
  cbn. now apply find_session_first.
Qed.

Lemma find_cookie_snoc (k : pystr) (cs : list cookie) (c : cookie) :
  find_cookie k (cs ++ [c])
  = match find_cookie k cs with
    | Some v => Some v
    | None => if pystr_eqb (cookie_name c) k then Some (cookie_value c)
              else None
    end.
Proof.
  induction cs as [| c' cs IH]; [reflexivity |].
  cbn [app find_cookie]. now destruct (pystr_eqb (cookie_name c') k).
Qed.

(** Look-up in the dictionary built from the cookies [cs] over [d]. *)
Lemma cookie_dict_lookup (k : pystr) (cs : list cookie) : forall d,
  assoc k (fold_left (fun d c => dict_set (cookie_name c) (cookie_value c) d)
                     cs d)
  = match find_cookie k (rev cs) with
    | Some v => Some v
    | None => assoc k d
    end.
Proof.
  induction cs as [| c cs IH]; intro d; [reflexivity |].
  cbn [fold_left rev]. rewrite IH, find_cookie_snoc, assoc_dict_set.
  rewrite (pystr_eqb_sym k).
  destruct (find_cookie k (rev cs)); [reflexivity |].
  now destruct (pystr_eqb (cookie_name c) k).
Qed.

Lemma find_cookie_session (cs : list cookie) :
  find_cookie (lit "session") cs = find_session cs.
Proof.
  induction cs as [| c cs IH]; [reflexivity |].
  cbn [find_cookie find_session]. now rewrite IH.
Qed.

(** The dictionary [all_cookies] holds no name twice, and under every name
    [k] the value of the last cookie named [k] in the list the browser gives,
    nothing when no cookie has that name; [session_cookie] holds the value
    of the first cookie named [session]. *)
Theorem all_cookies_keeps_the_last :
  forall (pg : page) (username password : pystr) (cs : list cookie),
    first_failure pg = None ->
    cookies pg = Ok cs ->
    exists evs i d,
      io (login_and_extract pg username password) evs (Ok i)
      /\ all_cookies i = Some d
      /\ NoDup (map fst d)
      /\ (forall k, assoc k d = find_cookie k (rev cs))
      /\ session_cookie i = find_cookie (lit "session") cs.
Proof.
  intros pg username password cs F C.
  destruct (login_cases pg username password) as (evs & i & L & P).
  rewrite F in P. destruct P as (cs' & api2 & C' & ->).
  rewrite C in C'. injection C' as <-.
  exists evs. eexists. exists (cookie_dict cs). split; [exact L |].
  split; [reflexivity |]. split; [| split].
  - apply cookie_dict_nodup. constructor.
  - intro k. unfold cookie_dict. rewrite cookie_dict_lookup.
    now destruct (find_cookie k (rev cs)).
  - cbn. now rewrite find_cookie_session.
Qed.

(** The trace of a login that one of the six calls outside the inner [try]
    blocks ends. *)
Lemma login_failure_trace :
  forall (pg : page) (username password : pystr) (e : exn),
    first_failure pg = Some e ->
    exists steps,
      io (login_and_extract pg username password)
         (steps ++ [EvPrint (MsgError e)]) (Ok (failure e))
      /\ existsb asks_endpoint steps = false
      /\ existsb reads_storage steps = false.
Proof.
  intros pg username password e F.
  pose proof (dismiss_dialog_io pg) as Hd.
  destruct (dialog_trace_no_lookup pg) as [D1 D2].
  unfold first_failure in F. unfold login_and_extract, login_steps.
  destruct (goto_login pg) as [[] | e1];
    [ destruct (wait_form pg) as [[] | e2];
      [ destruct (fill_username pg) as [[] | e3];
        [ destruct (fill_password pg) as [[] | e4];
          [ destruct (click_submit pg) as [[] | e5];
            [ destruct (cookies pg) as [cs | e6]; [discriminate |] | ] | ] | ] | ] | ];
    injection F as <-;
    (eexists; split;
     [ eapply io_eq;
       [ eapply io_try_caught;
         [ io_chain ltac:(exact Hd)
         | eapply (io_bind_ok _ _ [_] _ []); [apply io_emit | apply io_ret] ]
       | rewrite app_nil_r; reflexivity ]
     | rewrite !existsb_app, ?D1, ?D2; split; reflexivity ]).
Qed.


End LoginExtras.

(** * Further properties of [main] *)

Section MainExtras.

Variable json_loads : pystr -> result json.
Variable str_container : json -> pystr.
Variable w : world.

Notation turn := (process_user json_loads str_container w).
Notation loop := (for_users json_loads str_container w).
Notation run := (main json_loads str_container w).

(** The run on a truthy configuration after a launch that succeeds, by the
    result of the loop. *)
Lemma main_launched (user_list : json) :
  truthy user_list = true ->
  launch w = Ok tt ->
  run (Loaded user_list)
  = match iterate user_list (log start_trace init) with
    | (s1, Raise e) => (log [EvStopPlaywright] s1, Raise e)
    | (s1, Ok users) =>
        match loop (List.length users) 0 users s1 with
        | (s2, Raise e) => (log [EvStopPlaywright] s2, Raise e)
        | (s2, Ok _) =>
            (write_output ;; print MsgDone ;; rs <- get_results ;;
             print (MsgCount (List.length rs)) ;; print MsgHint)
              (log [EvCloseBrowser; EvStopPlaywright] s2)
        end
    end.
Proof.
  intros T L. unfold main, main_body. rewrite T. cbn [negb].
  unfold bind at 1. rewrite browser_block_eq. cbv zeta. rewrite L.
  fold start_trace.
  destruct (iterate user_list _) as [s1 [users | e]]; [| reflexivity].
  now destruct (loop _ _ _ _) as [s2 [[] | e]].
Qed.

(** When no record of the list has credentials, every record is skipped
    with a notice that gives its position, the browser is closed, and the
    output file is written with the empty list. *)
Theorem all_skipped_writes_the_empty_list :
  forall users : list json,
    users <> [] ->
    forallb is_record users = true ->
    existsb has_credentials users = false ->
    launch w = Ok tt ->
    run (Loaded (JList users))
    = ({| trace := start_trace
                   ++ skip_events 0 (List.length users)
                   ++ [EvCloseBrowser; EvStopPlaywright; EvWriteOutput [];
                       EvPrint MsgDone; EvPrint (MsgCount 0); EvPrint MsgHint];
          results := []; info := None; written := Some [] |}, Ok tt).
Proof.
  intros users N R C L.
  rewrite main_launched; [| now destruct users | exact L].
  cbn [iterate ret].
  rewrite <- (app_nil_r users) at 2.
  rewrite (for_users_skip json_loads str_container w _ [] users 0 _ R C).
  cbn [for_users ret]. rewrite !log_log.
  unfold bind, write_output, get_results, print, emit, log. cbn.
  now rewrite <- !app_assoc.
Qed.

(** An entry that is no record raises an [AttributeError] at the first
    field that cannot be read. *)
Lemma process_user_attribute_error n idx user s :
  is_record user = false ->
  exists msg, turn n idx user s = (s, Raise (Exn AttributeError msg)).
Proof.
  intro R. unfold process_user.
  destruct user as [| b | z | nz sh | str | l | d];
    try (eexists; apply bind_raise; reflexivity).
  unfold is_record, forallb in R.
  pose proof (get_strip_dict d "name" s) as Hn.
  pose proof (get_strip_dict d "provider" s) as Hp.
  pose proof (get_strip_dict d "username" s) as Hu.
  pose proof (get_strip_dict d "password" s) as Hw.
  destruct (assoc (lit "name") d) as [[] |];
    try (eexists; apply bind_raise; exact Hn);
    rewrite (bind_ok _ _ _ _ _ Hn);
    (destruct (assoc (lit "provider") d) as [[] |];
     try (eexists; apply bind_raise; exact Hp);
     rewrite (bind_ok _ _ _ _ _ Hp);
     (destruct (assoc (lit "username") d) as [[] |];
      try (eexists; apply bind_raise; exact Hu);
      rewrite (bind_ok _ _ _ _ _ Hu);
      (destruct (assoc (lit "password") d) as [[] |];
       try (eexists; apply bind_raise; exact Hw);
       discriminate R))).
Qed.

(** An entry of the list that is no object, or whose name, provider,
    username or password is no string, ends the run with an
    [AttributeError]: the records before it were skipped, no context is
    opened, the browser is not closed and no output file is written. *)
Theorem malformed_entry_ends_the_run :
  forall (skipped rest : list json) (bad : json),
    forallb is_record skipped = true ->
    existsb has_credentials skipped = false ->
    is_record bad = false ->
    launch w = Ok tt ->
    exists msg,
      run (Loaded (JList (skipped ++ bad :: rest)))
      = ({| trace := start_trace
                     ++ skip_events 0 (List.length skipped)
                     ++ [EvStopPlaywright];
            results := []; info := None; written := None |},
         Raise (Exn AttributeError msg)).
Proof.
  intros skipped rest bad R C B L.
  rewrite main_launched; [| now destruct skipped | exact L].
  cbn [iterate ret].
  rewrite (for_users_skip json_loads str_container w _ _ _ 0 _ R C).
  cbn [for_users Nat.add].
  destruct (process_user_attribute_error
              (List.length (skipped ++ bad :: rest)) (List.length skipped) bad
              (log (skip_events 0 (List.length skipped)) (log start_trace init)) B)
    as [msg E].
  exists msg. rewrite (bind_raise _ _ _ _ _ E), !log_log, log_init.
  rewrite <- ?app_assoc. reflexivity.
Qed.

(** A configuration that is truthy but no list ends the run after the
    browser was launched, with nothing written: an object or a string is
    iterated, and its first key or character is a [str], which has no [get];
    a number or [true] cannot be iterated. *)
Theorem configuration_that_is_no_list :
  forall user_list : json,
    truthy user_list = true ->
    match user_list with JList _ => false | _ => true end = true ->
    launch w = Ok tt ->
    run (Loaded user_list)
    = ({| trace := start_trace ++ [EvStopPlaywright];
          results := []; info := None; written := None |},
       Raise (match user_list with
              | JDict _ | JStr _ => no_attribute (JStr []) "get"
              | other =>
                  Exn TypeError
                      (lit "'" ++ type_name other ++ lit "' object is not iterable")
              end)).
Proof.
  intros user_list T N L.
  rewrite main_launched by assumption.
  destruct user_list as [| b | z | nz sh | str | l | d];
    try discriminate; try reflexivity.
  - destruct str as [| c str]; [discriminate | reflexivity].
  - destruct d as [| [k v] d]; [discriminate | reflexivity].
Qed.

Lemma lstrip_blank (s : pystr) : forallb is_space s = true -> lstrip s = [].
Proof.
  induction s as [| c s IH]; [reflexivity |].
  cbn [forallb lstrip]. intro H. apply andb_prop in H. destruct H as [-> H].
  now apply IH.
Qed.

Lemma lstrip_nil (s : pystr) : lstrip s = [] -> forallb is_space s = true.
Proof.
  induction s as [| c s IH]; [reflexivity |].
  cbn [forallb lstrip]. destruct (is_space c); [exact IH | discriminate].
Qed.

Lemma lstrip_head (s : pystr) (c : N) (t : pystr) :
  lstrip s = c :: t -> is_space c = false.
Proof.
  induction s as [| a s IH]; [discriminate |].
  cbn [lstrip]. destruct (is_space a) eqn:E; [exact IH |].
  now intros [= <- _].
Qed.

(** [lstrip] removes a prefix. *)
Lemma lstrip_suffix (s : pystr) : exists p, s = p ++ lstrip s.
Proof.
  induction s as [| a s [p IH]]; [now exists [] |].
  cbn [lstrip]. destruct (is_space a).
  - exists (a :: p). cbn. now f_equal.
  - now exists [].
Qed.

(** A string strips to nothing exactly when it is white space only. *)
Lemma strip_empty (s : pystr) :
  is_empty (strip s) = forallb is_space s.
Proof.
  unfold strip.
  destruct (forallb is_space s) eqn:B.
  - now rewrite (lstrip_blank s B).
  - destruct (lstrip s) as [| c t] eqn:L.
    + apply lstrip_nil in L. congruence.
    + destruct (lstrip (rev (c :: t))) as [| c' t'] eqn:L'.
      * apply lstrip_nil in L'. rewrite forallb_forall in L'.
        specialize (L' c). rewrite (lstrip_head s c t L) in L'.
        discriminate L'. rewrite <- in_rev. now left.
      * destruct (rev (c' :: t')) eqn:R; [| reflexivity].
        apply (f_equal (@List.length N)) in R. rewrite length_rev in R.
        discriminate R.
Qed.

Lemma field_empty (d : list (pystr * json)) (key : string) :
  is_empty (field d key) = blank d key.
Proof.
  unfold field, blank.
  destruct (assoc (lit key) d) as [[] |]; try reflexivity.
  apply strip_empty.
Qed.

(** A record with credentials starts its turn with the login notice and a
    new context, whatever follows. *)
Lemma process_user_attempt n idx d s :
  is_record (JDict d) = true ->
  has_credentials (JDict d) = true ->
  exists s' r tail,
    turn n idx (JDict d) s = (s', r)
    /\ trace s'
       = trace s
         ++ EvPrint (MsgLogin (Z.of_nat idx + 1) (provider_of d)
                              (field d "username"))
         :: EvNewContext idx :: tail.
Proof.
  intros R C.
  rewrite (process_user_record _ _ _ _ _ _ _ R).
  unfold has_credentials in C. rewrite <- negb_orb in C.
  apply negb_true_iff in C. rewrite C.
  unfold bind at 1. unfold print at 1, emit at 1.
  unfold bind at 1. rewrite io_call.
  destruct (new_context w idx) as [[] | e].
  2: { eexists _, _, []. split; [reflexivity |]. cbn. now rewrite <- app_assoc. }
  unfold bind at 1. rewrite io_call.
  destruct (new_page w idx) as [pg | e].
  2: { eexists _, _, [_]. split; [reflexivity |]. cbn.
       now rewrite <- !app_assoc. }
  rewrite !log_log. cbn [app].
  destruct (info s) as [i |] eqn:B.
  - destruct (login_block_bound json_loads str_container idx pg
                (name_of idx d) (provider_of d)
                (field d "username") (field d "password")
                (log [EvPrint (MsgLogin (Z.of_nat idx + 1) (provider_of d)
                                        (field d "username"));
                      EvNewContext idx; EvNewPage idx] s) i B)
      as (steps & i' & _ & E).
    unfold bind at 1. rewrite E.
    destruct (Z.of_nat idx <? Z.of_nat n - 1);
      (eexists _, _, _; split; [reflexivity |]; cbn;
       rewrite <- !app_assoc; cbn; reflexivity).
  - unfold bind at 1.
    rewrite (login_block_unbound json_loads str_container) by exact B.
    eexists _, _, [_; _]. split; [reflexivity |]. cbn.
    now rewrite <- !app_assoc.
Qed.

(** A record is skipped exactly when its username or its password is absent
    or holds white space only: it is then skipped with the notice of its
    position and nothing else happens; otherwise the turn announces the login
    with the stripped username and opens a context. *)
Theorem skipped_exactly_when_blank :
  forall (n idx : nat) (d : list (pystr * json)) (s : state),
    is_record (JDict d) = true ->
    if blank d "username" || blank d "password"
    then turn n idx (JDict d) s
         = (log [EvPrint (MsgSkip (Z.of_nat idx + 1))] s, Ok tt)
    else exists s' r tail,
        turn n idx (JDict d) s = (s', r)
        /\ trace s'
           = trace s
             ++ EvPrint (MsgLogin (Z.of_nat idx + 1) (provider_of d)
                                  (field d "username"))
             :: EvNewContext idx :: tail.
Proof.
  intros n idx d s R.
  rewrite <- !field_empty.
  destruct (is_empty (field d "username") || is_empty (field d "password")) eqn:E.
  - apply process_user_skip; [exact R |].
    unfold has_credentials. rewrite <- negb_orb. now rewrite E.
  - apply process_user_attempt; [exact R |].
    unfold has_credentials. rewrite <- negb_orb. now rewrite E.
Qed.

Lemma count_events_app (f : event -> bool) (a b : list event) :
  count_events f (a ++ b) = (count_events f a + count_events f b)%nat.
Proof.
  unfold count_events. now rewrite filter_app, length_app.
Qed.

Lemma count_skip_events (f : event -> bool) (idx count : nat) :
  (forall m, f (EvPrint m) = false) ->
  count_events f (skip_events idx count) = 0%nat.
Proof.
  intro H. unfold skip_events, count_events.
  generalize (seq idx count). induction l as [| i l IH]; [reflexivity |].
  cbn [map filter]. now rewrite H.
Qed.

(** One turn of the loop while [info] is unbound opens one context and one
    page at most, and none when it returns. *)
Lemma process_user_unbound_opens n idx user s :
  info s = None ->
  exists evs r,
    turn n idx user s = (log evs s, r)
    /\ (count_events opens_context evs <= 1)%nat
    /\ (count_events opens_page evs <= 1)%nat
    /\ match r with
       | Ok _ => evs = [EvPrint (MsgSkip (Z.of_nat idx + 1))]
       | Raise _ => True
       end.
Proof.
  intro U. destruct (is_record user) eqn:R.
  - destruct (has_credentials user) eqn:C.
    + destruct user as [| | | | | | d]; try discriminate.
      rewrite (process_user_first _ _ _ _ _ _ _ R C U). cbv zeta.
      destruct (new_context w idx) as [[] | e];
        [destruct (new_page w idx) as [pg | e] |];
        eexists _, _; (split; [reflexivity |]); cbn; repeat split; lia.
    + rewrite (process_user_skip _ _ _ _ _ _ _ R C).
      eexists _, _; (split; [reflexivity |]); cbn; repeat split; lia.
  - destruct (process_user_not_record json_loads str_container w n idx user s R)
      as [e He].
    exists [], (Raise e). rewrite He, log_nil. cbn. repeat split; lia.
Qed.

Lemma for_users_unbound_opens n users : forall idx s,
  info s = None ->
  exists evs r,
    loop n idx users s = (log evs s, r)
    /\ (count_events opens_context evs <= 1)%nat
    /\ (count_events opens_page evs <= 1)%nat.
Proof.
  induction users as [| user rest IH]; intros idx s U.
  - exists [], (Ok tt). cbn. rewrite log_nil. repeat split; lia.
  - cbn [for_users].
    destruct (process_user_unbound_opens n idx user s U)
      as (evs & r & E & Hc & Hp & P).
    destruct r as [[] | e].
    + subst evs. rewrite (bind_ok _ _ _ _ _ E).
      destruct (IH (S idx) (log [EvPrint (MsgSkip (Z.of_nat idx + 1))] s) U)
        as (evs' & r' & E' & Hc' & Hp').
      rewrite E', log_log.
      eexists _, r'. split; [reflexivity |].
      rewrite !count_events_app.
      change (count_events opens_context
                [EvPrint (MsgSkip (Z.of_nat idx + 1))]) with 0%nat.
      change (count_events opens_page
                [EvPrint (MsgSkip (Z.of_nat idx + 1))]) with 0%nat.
      now split.
    + rewrite (bind_raise _ _ _ _ _ E). now exists evs, (Raise e).
Qed.

(** No run opens more than one browser context or more than one page,
    whatever the configuration holds and whatever the browser answers. *)
Theorem at_most_one_context_per_run :
  forall config : load_result,
    (count_events opens_context (trace (fst (run config))) <= 1)%nat
    /\ (count_events opens_page (trace (fst (run config))) <= 1)%nat.
Proof.
  intro config.
  assert (exists s r,
             run config = (s, r)
             /\ (count_events opens_context (trace s) <= 1)%nat
             /\ (count_events opens_page (trace s) <= 1)%nat)
    as (s & r & E & H); [| now rewrite E].
  destruct config as [| msg | e | user_list];
    try (eexists _, _; split; [reflexivity | cbn; split; lia]).
  unfold main, main_body.
  destruct (truthy user_list);
    [| eexists _, _; split; [reflexivity | cbn; split; lia] ].
  cbn [negb]. unfold bind at 1. rewrite browser_block_eq. cbv zeta.
  destruct (launch w) as [[] | e];
    [| eexists _, _; split; [reflexivity | cbn; split; lia] ].
  assert (L : forall users,
             exists s r,
               match
                 match loop (List.length users) 0 users
                         (log [EvStartPlaywright; EvPrint (MsgStep 0); EvLaunch]
                              init)
                 with
                 | (s2, Raise e) => (log [EvStopPlaywright] s2, Raise e)
                 | (s2, Ok _) => (log [EvCloseBrowser; EvStopPlaywright] s2, Ok tt)
                 end
               with
               | (s', Raise e) => (s', Raise e)
               | (s', Ok _) =>
                   (write_output ;; print MsgDone ;; rs <- get_results ;;
                    print (MsgCount (List.length rs)) ;; print MsgHint) s'
               end = (s, r)
               /\ (count_events opens_context (trace s) <= 1)%nat
               /\ (count_events opens_page (trace s) <= 1)%nat).
  { intro users.
    destruct (for_users_unbound_opens (List.length users) users 0
                (log [EvStartPlaywright; EvPrint (MsgStep 0); EvLaunch] init)
                eq_refl) as (evs & r & -> & Hc & Hp).
    remember (count_events opens_context evs) as a eqn:Ha.
    remember (count_events opens_page evs) as b eqn:Hb.
    destruct r as [[] | e]; (eexists _, _; split; [reflexivity |]);
      unfold bind, write_output, get_results, print, emit, log, init;
      cbn [trace fst results info written]; rewrite ?app_nil_l;
      rewrite !count_events_app, <- Ha, <- Hb; clear Ha Hb;
      cbn; split; lia. }
  destruct user_list as [| b | z | nz sh | str | l | d];
    try (eexists _, _; split; [reflexivity | cbn; split; lia]);
    cbn [iterate ret]; apply L.
Qed.

(** From a state in which [info] is bound, the turn of a record with
    credentials appends one record: its name and provider are the stripped
    values of the input with the defaults, and its [api_user] and session
    cookie are those of the [info] found at the start of the turn, not of
    the login the turn makes, whose result is bound to [info] afterwards. *)
Theorem turn_appends_the_earlier_info :
  forall (n idx : nat) (d : list (pystr * json)) (pg : page)
         (s : state) (i : info_dict),
    is_record (JDict d) = true ->
    has_credentials (JDict d) = true ->
    new_context w idx = Ok tt ->
    new_page w idx = Ok pg ->
    info s = Some i ->
    exists steps i' s',
      io (login_and_extract json_loads str_container pg
                            (field d "username") (field d "password"))
         steps (Ok i')
      /\ turn n idx (JDict d) s = (s', Ok tt)
      /\ results s'
         = results s
           ++ [{| out_name := name_of idx d;
                  out_provider := provider_of d;
                  out_api_user := get_or_empty (api_user i);
                  out_cookies_session := get_or_empty (session_cookie i) |}]
      /\ info s' = Some i'
      /\ written s' = written s.
Proof.
  intros n idx d pg s i R C NC NP B.
  rewrite (process_user_record _ _ _ _ _ _ _ R).
  unfold has_credentials in C. rewrite <- negb_orb in C.
  apply negb_true_iff in C. rewrite C.
  unfold bind at 1. unfold print at 1, emit at 1.
  unfold bind at 1. rewrite io_call, NC.
  unfold bind at 1. rewrite io_call, NP. rewrite !log_log. cbn [app].
  destruct (login_block_bound json_loads str_container idx pg
              (name_of idx d) (provider_of d)
              (field d "username") (field d "password")
              (log [EvPrint (MsgLogin (Z.of_nat idx + 1) (provider_of d)
                                      (field d "username"));
                    EvNewContext idx; EvNewPage idx] s) i B)
    as (steps & i' & L & E).
  unfold bind at 1. rewrite E.
  exists steps, i'.
  destruct (Z.of_nat idx <? Z.of_nat n - 1);
    (eexists; split; [exact L |]; split; [reflexivity |]; now cbn).
Qed.

End MainExtras.

(** * The fields read from a record *)

Lemma lit_inj (a b : string) : lit a = lit b -> a = b.
Proof.
  unfold lit. intro H.
  apply (f_equal (map ascii_of_N)) in H. rewrite !map_map in H.
  rewrite !(map_ext _ (fun x => x) ascii_N_embedding), !map_id in H.
  apply (f_equal string_of_list_ascii) in H.
  now rewrite !string_of_list_ascii_of_string in H.
Qed.

Lemma str_of_Z_inj (a b : Z) : str_of_Z a = str_of_Z b -> a = b.
Proof.
  assert (N : forall z, Z.to_int z <> Decimal.Pos Decimal.Nil
                        /\ Z.to_int z <> Decimal.Neg Decimal.Nil).
  { intro z. split; intro E;
      (assert (Z0 : z = 0)
        by (apply (f_equal Z.of_int) in E; now rewrite DecimalZ.of_to in E));
      subst z; discriminate E. }
  unfold str_of_Z. intro H. apply lit_inj in H.
  apply (f_equal NilZero.int_of_string) in H.
  rewrite !NilZero.isi in H by apply N.
  injection H as H. now apply DecimalZ.to_int_inj.
Qed.

(** The default names of two positions are equal only when the positions
    are. *)
Theorem default_names_differ :
  forall i j : nat, default_name i = default_name j -> i = j.
Proof.
  intros i j H. unfold default_name in H.
  apply app_inv_head in H. apply str_of_Z_inj in H. lia.
Qed.

(** What [strip] leaves begins and ends with a character that is no white
    space. *)
Lemma strip_ends (x : pystr) :
  match strip x with
  | [] => True
  | c :: _ => is_space c = false /\ is_space (last (strip x) c) = false
  end.
Proof.
  unfold strip.
  destruct (lstrip_suffix (rev (lstrip x))) as [p S].
  destruct (lstrip (rev (lstrip x))) as [| c' t'] eqn:M; [exact I |].
  pose proof (lstrip_head _ _ _ M) as Hc'.
  apply (f_equal (@rev N)) in S. rewrite rev_involutive, rev_app_distr in S.
  cbn [rev] in *.
  destruct (rev t' ++ [c']) as [| h tl] eqn:R.
  - now destruct (rev t').
  - split.
    + cbn [app] in S. now apply (lstrip_head x h (tl ++ rev p)).
    + rewrite <- R. now rewrite last_last.
Qed.

(** [lstrip] removes a prefix of white space. *)
Lemma lstrip_split (s : pystr) :
  exists p, s = p ++ lstrip s /\ forallb is_space p = true.
Proof.
  induction s as [| a s (p & IH & B)]; [now exists [] |].
  cbn [lstrip]. destruct (is_space a) eqn:E.
  - exists (a :: p). cbn. rewrite E, B. split; [now f_equal | reflexivity].
  - now exists [].
Qed.

Lemma forallb_rev {A} (f : A -> bool) (l : list A) :
  forallb f (rev l) = forallb f l.
Proof.
  induction l as [| a l IH]; [reflexivity |].
  cbn. rewrite forallb_app, IH. cbn. rewrite andb_true_r. apply andb_comm.
Qed.

(** [strip] removes white space before and after what it returns. *)
Lemma strip_split (x : pystr) :
  exists before after,
    x = before ++ strip x ++ after
    /\ forallb is_space before = true
    /\ forallb is_space after = true.
Proof.
  unfold strip.
  destruct (lstrip_split x) as (p & Hx & Bp).
  destruct (lstrip_split (rev (lstrip x))) as (q & Hl & Bq).
  exists p, (rev q). split; [| split; [exact Bp | now rewrite forallb_rev] ].
  rewrite <- rev_app_distr, <- Hl, rev_involutive. exact Hx.
Qed.

(** Every field the loop reads from a record is stripped: the value it
    goes on with is the string of the record under that key, the empty
    string when the key is absent, without the white space before and after
    it; it is empty, or begins and ends with a character that is no white
    space.  Reading changes nothing in the state. *)
Theorem fields_are_stripped :
  forall (user : json) (key : string) (s s' : state) (v : pystr),
    get_strip user key s = (s', Ok v) ->
    s' = s
    /\ exists d raw before after,
        user = JDict d
        /\ match assoc (lit key) d with Some x => x | None => JStr [] end
           = JStr raw
        /\ raw = before ++ v ++ after
        /\ forallb is_space before = true
        /\ forallb is_space after = true
        /\ match v with
           | [] => True
           | c :: _ => is_space c = false /\ is_space (last v c) = false
           end.
Proof.
  intros user key s s' v H.
  destruct user as [| | | | | | d]; try discriminate H.
  unfold get_strip, ret, raise in H.
  destruct (match assoc (lit key) d with Some x => x | None => JStr [] end)
    as [| | | | raw | |] eqn:A; try discriminate H.
  injection H as <- <-. split; [reflexivity |].
  destruct (strip_split raw) as (before & after & E & Bb & Ba).
  exists d, raw, before, after. repeat split; try assumption.
  apply strip_ends.
Qed.

(** * The further properties on sample inputs *)

(** The endpoint of the scenario gives the id 42. *)
Lemma endpoint_id_is_the_api_user_witness :
  exists evs i,
    io (login_and_extract Sample.loads Sample.str_container Sample.page_xyz
                          (lit "a") (lit "b")) evs (Ok i)
    /\ api_user i = Some (lit "42")
    /\ success i = true
    /\ existsb reads_storage evs = false.
Proof.
  apply (endpoint_id_is_the_api_user
           Sample.loads Sample.str_container Sample.page_xyz (lit "a") (lit "b")
           (Response 200 (Ok (JDict [(lit "data", JDict [(lit "id", JInt 42)])])))
           [(lit "data", JDict [(lit "id", JInt 42)])]
           [(lit "id", JInt 42)]); reflexivity.
Defined.

(** The second entry of the sample storage holds the id 7. *)
Lemma storage_id_is_the_api_user_witness :
  exists evs i,
    io (login_and_extract Sample.loads Sample.str_container Sample.page_storage
                          (lit "a") (lit "b")) evs (Ok i)
    /\ api_user i = Some (lit "7").
Proof.
  apply (storage_id_is_the_api_user
           Sample.loads Sample.str_container Sample.page_storage
           (lit "a") (lit "b") (lit "STORAGE") (lit "user") (lit "USER")
           [(lit "theme", JStr (lit "dark"))] []
           [(lit "id", JInt 7)] (JInt 7)); reflexivity.
Defined.

(** A page with cookies, an endpoint that answers 401 and an empty
    storage. *)
Lemma no_id_is_no_error_witness :
  exists evs i,
    io (login_and_extract Sample.loads Sample.str_container
                          Sample.page_two_sessions (lit "a") (lit "b"))
       evs (Ok i)
    /\ api_user i = None
    /\ error i = None
    /\ success i = truthy_opt (session_cookie i).
Proof.
  apply (no_id_is_no_error
           Sample.loads Sample.str_container Sample.page_two_sessions
           (lit "a") (lit "b")); reflexivity.
Defined.

(** Of two cookies named [session] the first one is returned. *)
Lemma session_cookie_is_the_first_witness :
  exists evs i,
    io (login_and_extract Sample.loads Sample.str_container
                          Sample.page_two_sessions (lit "a") (lit "b"))
       evs (Ok i)
    /\ session_cookie i = Some (lit "OLD").
Proof.
  apply (session_cookie_is_the_first
           Sample.loads Sample.str_container Sample.page_two_sessions
           (lit "a") (lit "b")
           [Cookie (lit "lang") (lit "zh")]
           [Cookie (lit "session") (lit "NEW")]
           (Cookie (lit "session") (lit "OLD"))); reflexivity.
Defined.

(** Of two cookies named [session] the dictionary keeps the last one. *)
Lemma all_cookies_keeps_the_last_witness :
  exists evs i d,
    io (login_and_extract Sample.loads Sample.str_container
                          Sample.page_two_sessions (lit "a") (lit "b"))
       evs (Ok i)
    /\ all_cookies i = Some d
    /\ NoDup (map fst d)
    /\ (forall k,
          assoc k d
          = find_cookie k (rev [Cookie (lit "lang") (lit "zh");
                                Cookie (lit "session") (lit "OLD");
                                Cookie (lit "session") (lit "NEW")]))
    /\ session_cookie i = Some (lit "OLD").
Proof.
  apply (all_cookies_keeps_the_last
           Sample.loads Sample.str_container Sample.page_two_sessions
           (lit "a") (lit "b")
           [Cookie (lit "lang") (lit "zh");
            Cookie (lit "session") (lit "OLD");
            Cookie (lit "session") (lit "NEW")]); reflexivity.
Defined.


(** Two records without credentials. *)
Lemma all_skipped_writes_the_empty_list_witness :
  main Sample.loads Sample.str_container Sample.browser
       (Loaded (JList [JDict [(lit "username", JStr (lit "a"))]; JDict []]))
  = ({| trace := start_trace
                 ++ skip_events 0 2
                 ++ [EvCloseBrowser; EvStopPlaywright; EvWriteOutput [];
                     EvPrint MsgDone; EvPrint (MsgCount 0); EvPrint MsgHint];
        results := []; info := None; written := Some [] |}, Ok tt).
Proof.
  apply (all_skipped_writes_the_empty_list
           Sample.loads Sample.str_container Sample.browser
           [JDict [(lit "username", JStr (lit "a"))]; JDict []]);
    solve [discriminate | reflexivity].
Defined.

(** A number among the records. *)
Lemma malformed_entry_ends_the_run_witness :
  exists msg,
    main Sample.loads Sample.str_container Sample.browser
         (Loaded (JList ([JDict []] ++ JInt 5 :: [Sample.account "a" "b"])))
    = ({| trace := start_trace ++ skip_events 0 1 ++ [EvStopPlaywright];
          results := []; info := None; written := None |},
       Raise (Exn AttributeError msg)).
Proof.
  apply (malformed_entry_ends_the_run
           Sample.loads Sample.str_container Sample.browser
           [JDict []] [Sample.account "a" "b"] (JInt 5)); reflexivity.
Defined.

(** A single record written without the enclosing list. *)
Lemma configuration_that_is_no_list_witness :
  main Sample.loads Sample.str_container Sample.browser
       (Loaded (Sample.account "a" "b"))
  = ({| trace := start_trace ++ [EvStopPlaywright];
        results := []; info := None; written := None |},
     Raise (no_attribute (JStr []) "get")).
Proof.
  apply (configuration_that_is_no_list
           Sample.loads Sample.str_container Sample.browser
           (Sample.account "a" "b")); reflexivity.
Defined.

(** A password of two spaces. *)
Lemma skipped_exactly_when_blank_witness :
  process_user Sample.loads Sample.str_container Sample.browser 1 0
               (JDict [(lit "username", JStr (lit "a"));
                       (lit "password", JStr (lit "  "))]) init
  = (log [EvPrint (MsgSkip (Z.of_nat 0 + 1))] init, Ok tt).
Proof.
  apply (skipped_exactly_when_blank
           Sample.loads Sample.str_container Sample.browser 1%nat 0%nat
           [(lit "username", JStr (lit "a")); (lit "password", JStr (lit "  "))]
           init); reflexivity.
Defined.

(** The turn of a record from the sample state in which [info] is bound. *)
Lemma turn_appends_the_earlier_info_witness :
  exists steps i' s',
    io (login_and_extract Sample.loads Sample.str_container Sample.page_xyz
                          (lit "a") (lit "b"))
       steps (Ok i')
    /\ process_user Sample.loads Sample.str_container Sample.browser 1 0
                    (Sample.account "a" "b") Sample.bound = (s', Ok tt)
    /\ results s'
       = [{| out_name := default_name 0;
             out_provider := default_provider;
             out_api_user := []; out_cookies_session := [] |}]
    /\ info s' = Some i'
    /\ written s' = None.
Proof.
  apply (turn_appends_the_earlier_info
           Sample.loads Sample.str_container Sample.browser 1%nat 0%nat
           [(lit "username", JStr (lit "a")); (lit "password", JStr (lit "b"))]
           Sample.page_xyz Sample.bound
           {| success := false; error := Some (lit "earlier");
              session_cookie := None; api_user := None;
              current_url := None; all_cookies := None |}); reflexivity.
Defined.

Lemma default_names_differ_witness : 3%nat = 3%nat.
Proof.
  apply (default_names_differ 3 3). reflexivity.
Defined.

(** The username ["  a b  "] is read as ["a b"]. *)
Lemma fields_are_stripped_witness :
  init = init
  /\ exists d raw before after,
      JDict [(lit "username", JStr (lit "  a b  "))] = JDict d
      /\ match assoc (lit "username") d with Some x => x | None => JStr [] end
         = JStr raw
      /\ raw = before ++ lit "a b" ++ after
      /\ forallb is_space before = true
      /\ forallb is_space after = true
      /\ is_space 97 = false /\ is_space (last (lit "a b") 97%N) = false.
Proof.
  apply (fields_are_stripped
           (JDict [(lit "username", JStr (lit "  a b  "))]) "username"
           init init (lit "a b")). reflexivity.
Defined.

(** * Where the errors of a run go *)

(** C4 (amended).  While [print] returns, [login_and_extract] never raises,
    and each of its handlers does what follows.
    - An exception [e] of the navigation to the login page, the wait for
      the form, a fill, the submit or the read of the cookies ends the login:
      the error is printed last and the result is the failure record of [e].
      When none of them raises, the result carries no error and the session
      cookie read from the page, whatever the inner blocks caught.
    - An exception of the count or of the click of the announcement dialog
      is printed and the login goes on.
    - An exception of the navigation to the user-info endpoint, of the
      decoding of its body, or of a [data] that is no dictionary, is printed
      and leaves [api_user] unset.
    - An exception of the read of local storage, of its decoding, or of a
      storage that is no dictionary, is printed and leaves [api_user] as it
      was; an entry whose value does not decode is skipped without a print.
    - An error raised outside [login_and_extract] is not caught: when the
      launch of the browser raises [e], the run ends with [e]. *)
Theorem C4_login_and_extract_contains_errors :
  forall (json_loads : pystr -> result json) (str_container : json -> pystr)
         (w : world) (pg : page) (username password : pystr)
         (user_list api_user0 : json) (key value : pystr)
         (entries : list (pystr * json)),
    let login := login_and_extract json_loads str_container pg username password in
    let endpoint := api_user_from_endpoint pg in
    let storage := api_user_from_storage json_loads pg api_user0 in
    match first_failure pg with
    | Some e =>
        exists steps,
          io login (steps ++ [EvPrint (MsgError e)]) (Ok (failure e))
    | None =>
        exists evs i cs,
          io login evs (Ok i)
          /\ error i = None
          /\ cookies pg = Ok cs
          /\ session_cookie i = find_session cs
    end
    /\ match dialog_count pg with
       | Raise e =>
           io (dismiss_dialog pg)
              [EvPrint (MsgStep 2); EvDialogCount; EvPrint (MsgCaught e)]
              (Ok tt)
       | Ok O => True
       | Ok (S _) =>
           match dialog_click pg with
           | Raise e =>
               io (dismiss_dialog pg)
                  [EvPrint (MsgStep 2); EvDialogCount; EvDialogClick;
                   EvPrint (MsgCaught e)]
                  (Ok tt)
           | Ok _ => True
           end
       end
    /\ match goto_user_info pg with
       | Raise e =>
           io endpoint
              [EvGoto (lit "/api/user/info"); EvPrint (MsgCaught e)] (Ok JNull)
       | Ok None => True
       | Ok (Some resp) =>
           if status resp =? 200
           then match body resp with
                | Raise e =>
                    io endpoint
                       [EvGoto (lit "/api/user/info"); EvPrint (MsgCaught e)]
                       (Ok JNull)
                | Ok (JDict doc) =>
                    match (match assoc (lit "data") doc with
                           | Some v => v
                           | None => JDict []
                           end) with
                    | JDict _ => True
                    | other =>
                        io endpoint
                           [EvGoto (lit "/api/user/info"); EvPrint (MsgStep 10);
                            EvPrint (MsgCaught (no_attribute other "get"))]
                           (Ok JNull)
                    end
                | Ok _ => True
                end
           else True
       end
    /\ match local_storage pg with
       | Raise e =>
           io storage [EvReadLocalStorage; EvPrint (MsgCaught e)] (Ok api_user0)
       | Ok text =>
           match json_loads text with
           | Raise e =>
               io storage
                  [EvReadLocalStorage; EvPrint (MsgStep 11);
                   EvPrint (MsgCaught e)]
                  (Ok api_user0)
           | Ok (JDict items) =>
               io storage [EvReadLocalStorage; EvPrint (MsgStep 11)]
                  (Ok (scan_storage json_loads items api_user0))
           | Ok other =>
               io storage
                  [EvReadLocalStorage; EvPrint (MsgStep 11);
                   EvPrint (MsgCaught (no_attribute other "items"))]
                  (Ok api_user0)
           end
       end
    /\ match json_loads value with
       | Raise _ =>
           scan_storage json_loads ((key, JStr value) :: entries) api_user0
           = scan_storage json_loads entries api_user0
       | Ok _ => True
       end
    /\ (if truthy user_list
        then match launch w with
             | Raise e =>
                 snd (main json_loads str_container w (Loaded user_list))
                 = Raise e
             | Ok _ => True
             end
        else True).
Proof.
  intros json_loads str_container w pg username password user_list api_user0
         key value entries login endpoint storage.
  subst login endpoint storage.
  split; [| split; [| split; [| split; [| split]]]].
  - destruct (first_failure pg) as [e |] eqn:F.
    + destruct (login_failure_trace json_loads str_container
                  pg username password e F) as (steps & L & _).
      now exists steps.
    + destruct (login_and_extract_returns json_loads str_container
                  pg username password) as (evs & i & L & P).
      rewrite F in P. destruct P as (E & cs & C & S).
      now exists evs, i, cs.
  - pose proof (dismiss_dialog_io pg) as H. unfold dialog_trace in H.
    destruct (dialog_count pg) as [[| n] | e]; [exact I | | exact H].
    destruct (dialog_click pg) as [[] | e]; [exact I | exact H].
  - unfold api_user_from_endpoint.
    destruct (goto_user_info pg) as [[resp |] | e]; [| exact I |].
    + destruct (status resp =? 200) eqn:S; [| exact I].
      destruct (body resp) as [user_data | e] eqn:B.
      * destruct user_data as [| | | | | | doc]; try exact I.
        destruct (match assoc (lit "data") doc with
                  | Some v => v
                  | None => JDict []
                  end) as [| | | | | | data] eqn:D; try exact I;
          (eapply (io_try_caught _ _ [_; _] _ [_]);
           [ eapply (io_bind_ok _ _ [_]); [apply io_call |]; cbv beta iota;
             rewrite S, B;
             eapply (io_bind_ok _ _ [] _ [_]); [apply io_ret |]; cbv beta iota;
             eapply (io_bind_ok _ _ [_] _ []); [apply io_emit |]; cbv beta iota;
             rewrite D; apply io_raise
           | eapply (io_bind_ok _ _ [_] _ []); [apply io_emit | apply io_ret] ]).
      * eapply (io_try_caught _ _ [_] _ [_]).
        -- eapply (io_bind_ok _ _ [_] _ []); [apply io_call |]. cbv beta iota.
           rewrite S, B.
           eapply (io_bind_raise _ _ []). apply io_raise.
        -- eapply (io_bind_ok _ _ [_] _ []); [apply io_emit | apply io_ret].
    + eapply (io_try_caught _ _ [_] _ [_]).
      * eapply (io_bind_raise _ _ [_]). apply io_call.
      * eapply (io_bind_ok _ _ [_] _ []); [apply io_emit | apply io_ret].
  - destruct (local_storage pg) as [text | e] eqn:L.
    + destruct (json_loads text) as [doc | e] eqn:J.
      * destruct doc as [| | | | | | items];
          try (unfold api_user_from_storage; rewrite L;
               eapply (io_try_caught _ _ [_; _] _ [_]);
               [ eapply (io_bind_ok _ _ [_]); [apply io_call |]; cbv beta iota;
                 eapply (io_bind_ok _ _ [_] _ []); [apply io_emit |];
                 cbv beta iota; rewrite J; apply io_raise
               | eapply (io_bind_ok _ _ [_] _ []);
                 [apply io_emit | apply io_ret] ]).
        now apply (storage_io json_loads pg api_user0 text items).
      * unfold api_user_from_storage. rewrite L.
        eapply (io_try_caught _ _ [_; _] _ [_]).
        -- eapply (io_bind_ok _ _ [_]); [apply io_call |]. cbv beta iota.
           eapply (io_bind_ok _ _ [_] _ []); [apply io_emit |].
           cbv beta iota. rewrite J. apply io_raise.
        -- eapply (io_bind_ok _ _ [_] _ []); [apply io_emit | apply io_ret].
    + unfold api_user_from_storage. rewrite L.
      eapply (io_try_caught _ _ [_] _ [_]).
      * eapply (io_bind_raise _ _ [_]). apply io_call.
      * eapply (io_bind_ok _ _ [_] _ []); [apply io_emit | apply io_ret].
  - destruct (json_loads value) eqn:J; [exact I |].
    cbn [scan_storage]. now rewrite J.
  - destruct (truthy user_list) eqn:T; [| exact I].
    destruct (launch w) as [[] | e] eqn:L; [exact I |].
    now apply main_launch_error.
Qed.

(** C5, as stated, fails when another error comes first.  With an entry
    that is no record before the account, the run ends with the
    [AttributeError] of that entry and never reaches the account; with a
    browser that cannot be launched it ends with the error of the launch.
    In both runs the local [info] is never read. *)
Lemma C5_another_error_comes_first :
  main Sample.loads Sample.str_container Sample.browser
       (Loaded (JList [JInt 5; Sample.account "a" "b"]))
  = ({| trace := start_trace ++ [EvStopPlaywright];
        results := []; info := None; written := None |},
     Raise (Exn AttributeError (lit "'int' object has no attribute 'get'")))
  /\ main Sample.loads Sample.str_container Sample.no_browser
          (Loaded (JList [Sample.account "a" "b"]))
     = ({| trace := start_trace ++ [EvStopPlaywright];
           results := []; info := None; written := None |},
        Raise (Exn PlaywrightError (lit "Executable doesn't exist"))).
Proof.
  split; reflexivity.
Qed.

(** C7, as stated, fails for a file that is no UTF-8 text: [json.load]
    raises a [UnicodeDecodeError], which neither [except] clause catches, so
    the run prints nothing and ends with the exception. *)
Lemma C7_undecodable_file_is_not_reported :
  main Sample.loads Sample.str_container Sample.browser
       (LoadOther (Exn UnicodeDecodeError
                       (lit "'utf-8' codec can't decode byte 0xff in position 0")))
  = ({| trace := []; results := []; info := None; written := None |},
     Raise (Exn UnicodeDecodeError
                (lit "'utf-8' codec can't decode byte 0xff in position 0"))).
Proof.
  reflexivity.
Qed.

(** C8.  When the browser opens the context of an account and then fails to
    open its page, the exception of [new_page] leaves the loop before the
    [try] block is entered: the run ends without closing the context it
    opened. *)
Theorem C8_context_left_open_when_the_page_fails :
  let run :=
    main Sample.loads Sample.str_container Sample.no_page
         (Loaded (JList [Sample.account "a" "b"])) in
  run
  = ({| trace := start_trace
                 ++ [EvPrint (MsgLogin 1 (lit "anyrouter.top") (lit "a"));
                     EvNewContext 0; EvNewPage 0; EvStopPlaywright];
        results := []; info := None; written := None |},
     Raise (Exn PlaywrightError
                (lit "Target page, context or browser has been closed")))
  /\ existsb opens_context (trace (fst run)) = true
  /\ existsb closes_context (trace (fst run)) = false.
Proof.
  cbv zeta. repeat split; reflexivity.
Qed.



